(** * RAG/models/generation.py: the two chain builders

    A shallow embedding of [generate_chain] and
    [generate_chain_with_balanced_retrieval], and of the part of the
    orchestration framework they compose (runnables, prompt templates,
    output parsers), followed by the properties of the built pipelines.

    Layout:
    - [Python]    : values, dictionaries, exceptions, [str.join], and the
                    call-log monad in which collaborators are invoked;
    - [LangChain] : the runnables the source composes and their [invoke];
    - [Generation]: the source file, definition by definition;
    - [Stubs]     : test doubles for the collaborators and the framework;
    - the vocabulary of the properties, then the lemmas and theorems.

    Modelling boundary.  The retriever, the databases and the language
    model are collaborators passed in by the caller; they are functions of
    their arguments (deterministic stubs), and every call to one of them is
    recorded in a call log that is threaded through builders and
    invocations.  Building can fail in three places: the source's own
    check of [output_parser], the prompt constructors, which parse the
    template and check its variables, and the coercion of a missing
    retriever to a pipeline step.  What the framework computes on text it
    does not own in the source (JSON reading, format instructions, [str()]
    of non-strings, the wording of its error messages, the default model)
    is a field of the [Framework] class; the construction of the default
    model is taken to succeed. *)

From Stdlib Require Import String Ascii List ZArith Bool PrimFloat Lia.
Import ListNotations.
Set Warnings "-register-all".
Open Scope list_scope.
Open Scope string_scope.

(* ================================================================== *)
(** ** Python: values, dictionaries, exceptions, effects *)
(* ================================================================== *)

Module Python.

(** The Python values that flow through the pipelines. *)
Inductive value : Type :=
| VNone
| VStr (s : string)
| VList (items : list value)
| VDict (entries : list (string * value))
| VDocument (page_content : string) (metadata : list (string * string))
| VPrompt (text : string)            (* a formatted prompt value *)
| VMessage (content : string).       (* a chat model's reply *)

(** Exceptions that reach the caller. *)
Inductive exn : Type :=
| ValueError (msg : string)
| KeyError (arg : string)             (* the missing key, or a message *)
| TypeError
| AssertionError
| OutputParserException
| Unmodelled.                        (* a format field outside the model *)

Inductive result (A : Type) : Type :=
| Ok (a : A)
| Raise (e : exn).
Arguments Ok {A} a.
Arguments Raise {A} e.

(** Calls made to the collaborators, in the order they are made. *)
Inductive event : Type :=
| Construct_ChatOpenAI (model_name : string) (max_tokens : Z) (temperature : float)
| Call_retriever (query : value)
| Call_build_context (db : nat) (query : value) (k : Z)
| Call_get_documents_for_each_party (db : nat) (query : value) (k : Z)
| Call_llm (prompt : string).


Definition log := list event.

(** Computations that may raise and that append to the call log. *)
Definition M (A : Type) : Type := log -> result A * log.

Definition ret {A} (a : A) : M A := fun l => (Ok a, l).

Definition raise {A} (e : exn) : M A := fun l => (Raise e, l).

Definition bind {A B} (m : M A) (f : A -> M B) : M B :=
  fun l =>
    match m l with
    | (Ok a, l') => f a l'
    | (Raise e, l') => (Raise e, l')
    end.

Definition emit (ev : event) : M unit := fun l => (Ok tt, (l ++ [ev])%list).

Definition outcome {A} (m : M A) (l : log) : result A := fst (m l).
Definition calls {A} (m : M A) (l : log) : log := snd (m l).

Declare Scope py_scope.
Delimit Scope py_scope with py.
Notation "x <- m ;; k" := (bind m (fun x => k))
  (at level 61, m at next level, right associativity) : py_scope.
Notation "m ;;; k" := (bind m (fun _ => k))
  (at level 61, right associativity) : py_scope.
Open Scope py_scope.

(** *** Dictionaries: insertion-ordered, one entry per key *)

Section Dict.
Context {V : Type}.

Fixpoint dict_get (d : list (string * V)) (key : string) : option V :=
  match d with
  | [] => None
  | (k, v) :: d' => if String.eqb k key then Some v else dict_get d' key
  end.

(** [d[key] = v]: overwrite in place, or append a new entry. *)
Fixpoint dict_set (d : list (string * V)) (key : string) (v : V)
  : list (string * V) :=
  match d with
  | [] => [(key, v)]
  | (k, w) :: d' =>
      if String.eqb k key then (k, v) :: d' else (k, w) :: dict_set d' key v
  end.

(** [{**d, **upd}] *)
Definition dict_update (d upd : list (string * V)) : list (string * V) :=
  fold_left (fun acc kv => dict_set acc (fst kv) (snd kv)) upd d.

(** [{key(x): val(x) for x in xs}] *)
Definition dict_of_items (items : list (string * V)) : list (string * V) :=
  dict_update [] items.

Definition dict_keys (d : list (string * V)) : list string := map fst d.
End Dict.

(** [x[key]] *)
Definition getitem (x : value) (key : string) : M value :=
  match x with
  | VDict d =>
      match dict_get d key with
      | Some v => ret v
      | None => raise (KeyError key)
      end
  | _ => raise TypeError
  end.

(** [sep.join(parts)] *)
Fixpoint join (sep : string) (parts : list string) : string :=
  match parts with
  | [] => ""
  | [p] => p
  | p :: rest => p ++ sep ++ join sep rest
  end.

Definition newline : string := String "010"%char EmptyString.
Definition dquote : string := String "034"%char EmptyString.

(** The text of a literal that spans several source lines. *)
Definition lines (ls : list string) : string := join newline ls.

(** [for x in xs], each step in [M]; [i] is the position of [x], kept
    for the log. *)
Fixpoint for_each {A B} (f : nat -> A -> M B) (i : nat) (xs : list A)
  : M (list B) :=
  match xs with
  | [] => ret []
  | x :: xs' =>
      y <- f i x ;;
      ys <- for_each f (S i) xs' ;;
      ret (y :: ys)
  end.

End Python.

(* ================================================================== *)
(** ** LangChain: the runnables the source composes *)
(* ================================================================== *)

Module LangChain.
Import Python.

(** A language model handle: from the prompt text to the raw reply. *)
Definition LLM : Type := string -> string.

(** A pydantic schema of text fields: name and description of each. *)
Definition schema : Type := list (string * string).

(** What the framework computes and the source only calls. *)
Class Framework : Type := {
  (** [str(v)] for a value that is not already a string *)
  py_str : value -> string;
  (** the JSON reader behind [JsonOutputParser]; [None] when it rejects *)
  json_loads : string -> option value;
  (** [JsonOutputParser(pydantic_object=s).get_format_instructions()] *)
  get_format_instructions : schema -> string;
  (** the message of the [KeyError] a prompt raises on missing input:
      from the missing variables, the expected ones and the received keys *)
  missing_variables_message : list string -> list string -> list string -> string;
  (** the message of the [ValidationError], a [ValueError], in which the
      validation of a constructor's arguments wraps a failure *)
  validation_error_message : string -> string;
  (** [ChatOpenAI(model_name=.., max_tokens=.., temperature=..)] *)
  ChatOpenAI : string -> Z -> float -> LLM
}.

(** *** Prompt templates (f-string format, named fields) *)

Definition format_arg `{Framework} (v : value) : string :=
  match v with
  | VStr s => s
  | _ => py_str v
  end.

(** Where the scanner of a format string stands. *)
Inductive scan : Type :=
| Literal                      (* in literal text *)
| Opened                       (* just read an opening brace *)
| Field (name : string)        (* inside a field, name read so far *)
| Closed.                      (* just read a closing brace in literal text *)

(** The characters that take a field out of the model: those of a
    conversion, a format spec, an attribute or an index, and those beyond
    ASCII. *)
Definition is_field_syntax (c : ascii) : bool :=
  (Ascii.eqb c "!" || Ascii.eqb c ":" || Ascii.eqb c "." || Ascii.eqb c "["
   || Ascii.eqb c "]")%char
  || (128 <=? nat_of_ascii c)%nat.

Definition is_digit (c : ascii) : bool :=
  (48 <=? nat_of_ascii c)%nat && (nat_of_ascii c <=? 57)%nat.

Definition snoc (s : string) (c : ascii) : string :=
  s ++ String c EmptyString.

Definition prepend (c : ascii) (r : result string) : result string :=
  match r with
  | Ok s => Ok (String c s)
  | Raise e => Raise e
  end.

Definition splice (v : string) (r : result string) : result string :=
  match r with
  | Ok s => Ok (v ++ s)
  | Raise e => Raise e
  end.

(** [template.format] on keyword arguments, left to right: doubled braces are
    literal braces, [{name}] is replaced by [str(kwargs[name])].
    Conversions, format specs, attribute or index access, positional
    fields (empty, or starting with a digit) and field names beyond ASCII
    are outside the model ([Unmodelled]); the templates of this file use
    none. *)
Fixpoint vformat `{Framework} (st : scan) (template : string)
    (kwargs : list (string * value)) : result string :=
  match template with
  | EmptyString =>
      match st with
      | Literal => Ok ""
      | Closed => Raise (ValueError "Single '}' encountered in format string")
      | Opened => Raise (ValueError "Single '{' encountered in format string")
      | Field _ => Raise (ValueError "expected '}' before end of string")
      end
  | String c rest =>
      match st with
      | Literal =>
          if Ascii.eqb c "{" then vformat Opened rest kwargs
          else if Ascii.eqb c "}" then vformat Closed rest kwargs
          else prepend c (vformat Literal rest kwargs)
      | Opened =>
          if Ascii.eqb c "{" then prepend c (vformat Literal rest kwargs)
          else if Ascii.eqb c "}" then Raise Unmodelled
          else if is_field_syntax c || is_digit c then Raise Unmodelled
          else vformat (Field (String c EmptyString)) rest kwargs
      | Field name =>
          if Ascii.eqb c "}" then
            match dict_get kwargs name with
            | Some v => splice (format_arg v) (vformat Literal rest kwargs)
            | None => Raise (KeyError name)
            end
          else if Ascii.eqb c "{" then
            Raise (ValueError "unexpected '{' in field name")
          else if is_field_syntax c then Raise Unmodelled
          else vformat (Field (snoc name c)) rest kwargs
      | Closed =>
          if Ascii.eqb c "}" then prepend c (vformat Literal rest kwargs)
          else Raise (ValueError "Single '}' encountered in format string")
      end
  end.

Definition format_template `{Framework} (template : string)
    (kwargs : list (string * value)) : result string :=
  vformat Literal template kwargs.

(** The field names of a template in order of occurrence, as the parse of
    the format string yields them; a malformed template raises the
    [ValueError] of the parse. *)
Definition cons_field (name : string) (r : result (list string))
  : result (list string) :=
  match r with
  | Ok names => Ok (name :: names)
  | Raise e => Raise e
  end.

Fixpoint parse_fields (st : scan) (template : string) : result (list string) :=
  match template with
  | EmptyString =>
      match st with
      | Literal => Ok []
      | Closed => Raise (ValueError "Single '}' encountered in format string")
      | Opened => Raise (ValueError "Single '{' encountered in format string")
      | Field _ => Raise (ValueError "expected '}' before end of string")
      end
  | String c rest =>
      match st with
      | Literal =>
          if Ascii.eqb c "{" then parse_fields Opened rest
          else if Ascii.eqb c "}" then parse_fields Closed rest
          else parse_fields Literal rest
      | Opened =>
          if Ascii.eqb c "{" then parse_fields Literal rest
          else if Ascii.eqb c "}" then Raise Unmodelled
          else if is_field_syntax c || is_digit c then Raise Unmodelled
          else parse_fields (Field (String c EmptyString)) rest
      | Field name =>
          if Ascii.eqb c "}" then cons_field name (parse_fields Literal rest)
          else if Ascii.eqb c "{" then
            Raise (ValueError "unexpected '{' in field name")
          else if is_field_syntax c then Raise Unmodelled
          else parse_fields (Field (snoc name c)) rest
      | Closed =>
          if Ascii.eqb c "}" then parse_fields Literal rest
          else Raise (ValueError "Single '}' encountered in format string")
      end
  end.

(** [sorted(names)] *)
Fixpoint insort (name : string) (names : list string) : list string :=
  match names with
  | [] => [name]
  | n :: names' =>
      if String.leb name n then name :: names else n :: insort name names'
  end.

Definition sorted (names : list string) : list string :=
  fold_right insort [] names.

(** [get_template_variables(template, "f-string")]: the set of the field
    names, sorted. *)
Definition get_template_variables (template : string) : result (list string) :=
  match parse_fields Literal template with
  | Ok names => Ok (sorted (nodup string_dec names))
  | Raise e => Raise e
  end.

(** *** Runnables *)

(** A retriever handle: from the query to what it retrieves. *)
Definition VectorStoreRetriever : Type := value -> value.

Inductive Runnable : Type :=
| RunnablePassthrough
| RunnableLambda (f : value -> M value)
| RunnableParallel (steps : list (string * Runnable))
| RunnableSequence (first last : Runnable)
| RunnableAssign (mapper : Runnable)
| Retriever (retriever : VectorStoreRetriever)
| PromptTemplate (template : string) (input_variables : list string)
    (partial_variables : list (string * string))
| ChatModel (llm : LLM)
| StrOutputParser
| JsonOutputParser (pydantic_object : schema).

Coercion Retriever : VectorStoreRetriever >-> Runnable.
Coercion ChatModel : LLM >-> Runnable.

(** [first | last] *)
Notation "a |> b" := (RunnableSequence a b) (at level 50, left associativity).

(** [r.assign(key=step, ...)] and [RunnablePassthrough.assign(...)] *)
Definition assign (r : Runnable) (kwargs : list (string * Runnable)) : Runnable :=
  r |> RunnableAssign (RunnableParallel kwargs).

Definition RunnablePassthrough_assign (kwargs : list (string * Runnable)) : Runnable :=
  RunnableAssign (RunnableParallel kwargs).

(** [PromptTemplate(template=.., input_variables=.., partial_variables=..)]:
    the validation of the arguments parses the template and takes as
    input variables the template's own, less the partial ones, whatever
    list the caller passed; no variable may be named [stop]. *)
Definition PromptTemplate_init `{Framework} (template : string)
    (input_variables : list string)
    (partial_variables : list (string * string)) : result Runnable :=
  match get_template_variables template with
  | Ok variables =>
      let input_variables :=
        filter (fun var => match dict_get partial_variables var with
                           | Some _ => false
                           | None => true
                           end) variables in
      if existsb (String.eqb "stop") input_variables then
        Raise (ValueError
                 (validation_error_message
                    "Cannot have an input variable named 'stop', as it is used internally, please rename."))
      else if existsb (String.eqb "stop") (dict_keys partial_variables) then
        Raise (ValueError
                 (validation_error_message
                    "Cannot have an partial variable named 'stop', as it is used internally, please rename."))
      else Ok (PromptTemplate template input_variables partial_variables)
  | Raise (ValueError msg) => Raise (ValueError (validation_error_message msg))
  | Raise e => Raise e
  end.

(** [PromptTemplate.from_template(template)]: parse the template, then
    construct the prompt over its variables. *)
Definition PromptTemplate_from_template `{Framework} (template : string)
  : result Runnable :=
  match get_template_variables template with
  | Ok input_variables => PromptTemplate_init template input_variables []
  | Raise e => Raise e
  end.

(** [coerce_to_runnable(retriever)], where a pipeline step is expected:
    [None] is no step. *)
Definition coerce_to_runnable (retriever : option VectorStoreRetriever)
  : result Runnable :=
  match retriever with
  | Some retriever => Ok (Retriever retriever)
  | None => Raise TypeError
  end.

(** A retriever given where the parameter defaults to [None]. *)
Definition given (retriever : VectorStoreRetriever)
  : option VectorStoreRetriever := Some retriever.
Coercion given : VectorStoreRetriever >-> option.

Definition lift {A} (r : result A) : M A :=
  match r with
  | Ok a => ret a
  | Raise e => raise e
  end.

(** The input variables a mapping lacks. *)
Definition missing_variables (input_variables : list string)
    (d : list (string * value)) : list string :=
  filter (fun var => match dict_get d var with
                     | Some _ => false
                     | None => true
                     end) input_variables.

(** Every input variable of a prompt must be given. *)
Definition check_input_variables `{Framework} (input_variables : list string)
    (d : list (string * value)) : M (list (string * value)) :=
  match missing_variables input_variables d with
  | [] => ret d
  | missing =>
      raise (KeyError
               (missing_variables_message missing input_variables (dict_keys d)))
  end.

(** The keyword arguments a prompt formats: the input must be a mapping
    (a lone value stands for a single input variable). *)
Definition validate_input `{Framework} (input_variables : list string)
    (input : value) : M (list (string * value)) :=
  match input with
  | VDict d => check_input_variables input_variables d
  | _ =>
      match input_variables with
      | [var] => check_input_variables input_variables [(var, input)]
      | _ => raise TypeError
      end
  end.

Definition partial_kwargs (partial_variables : list (string * string))
  : list (string * value) :=
  map (fun kv => (fst kv, VStr (snd kv))) partial_variables.

Definition invoke_prompt `{Framework} (template : string)
    (input_variables : list string)
    (partial_variables : list (string * string)) (input : value) : M value :=
  kwargs <- validate_input input_variables input ;;
  text <- lift (format_template template
                  (dict_update (partial_kwargs partial_variables) kwargs)) ;;
  ret (VPrompt text).

Definition invoke_llm (llm : LLM) (input : value) : M value :=
  match input with
  | VPrompt text | VStr text =>
      emit (Call_llm text) ;;; ret (VMessage (llm text))
  | _ => raise (ValueError "Invalid input type")
  end.

Definition invoke_retriever (retriever : VectorStoreRetriever) (input : value)
  : M value :=
  emit (Call_retriever input) ;;; ret (retriever input).

(** The text an output parser reads. *)
Definition generation_text (input : value) : M string :=
  match input with
  | VMessage text | VStr text => ret text
  | _ => raise TypeError
  end.

Definition parse_str (input : value) : M value :=
  text <- generation_text input ;; ret (VStr text).

Definition parse_json `{Framework} (input : value) : M value :=
  text <- generation_text input ;;
  match json_loads text with
  | Some v => ret v
  | None => raise OutputParserException
  end.

Definition merge_assigned (input output : value) : M value :=
  match input, output with
  | VDict d, VDict upd => ret (VDict (dict_update d upd))
  | _, _ => raise AssertionError
  end.

(** [r.invoke(input)].  The steps of a [RunnableParallel] all receive the
    same input; the framework may interleave them, and the log lists them
    in the order of the keys. *)
Fixpoint invoke `{Framework} (r : Runnable) (input : value) {struct r} : M value :=
  match r with
  | RunnablePassthrough => ret input
  | RunnableLambda f => f input
  | RunnableParallel steps =>
      d <- (fix go (ss : list (string * Runnable)) : M (list (string * value)) :=
              match ss with
              | [] => ret []
              | (key, step) :: ss' =>
                  v <- invoke step input ;;
                  d <- go ss' ;;
                  ret ((key, v) :: d)
              end) steps ;;
      ret (VDict d)
  | RunnableSequence first last =>
      mid <- invoke first input ;;
      invoke last mid
  | RunnableAssign mapper =>
      match input with
      | VDict _ => out <- invoke mapper input ;; merge_assigned input out
      | _ => raise AssertionError
      end
  | Retriever retriever => invoke_retriever retriever input
  | PromptTemplate template input_variables partial_variables =>
      invoke_prompt template input_variables partial_variables input
  | ChatModel llm => invoke_llm llm input
  | StrOutputParser => parse_str input
  | JsonOutputParser _ => parse_json input
  end.

Fixpoint invoke_steps `{Framework} (steps : list (string * Runnable))
    (input : value) : M (list (string * value)) :=
  match steps with
  | [] => ret []
  | (key, step) :: steps' =>
      v <- invoke step input ;;
      d <- invoke_steps steps' input ;;
      ret ((key, v) :: d)
  end.

End LangChain.

(* ================================================================== *)
(** ** Generation: RAG/models/generation.py *)
(* ================================================================== *)

Module Generation.
Import Python LangChain.

(** Output format: [class PartySummaries(BaseModel)], six text fields. *)
Definition PartySummaries : schema :=
  [ ("cdu", "Antwort auf die Frage des Nutzers basierend auf den Positionen der Partei CDU/CSU");
    ("spd", "Antwort auf die Frage des Nutzers basierend auf den Positionen der Partei SPD");
    ("gruene", "Antwort auf die Frage des Nutzers basierend auf den Positionen der Partei Bündnis 90/Die Grünen");
    ("linke", "Antwort auf die Frage des Nutzers basierend auf den Positionen der Partei Die Linke");
    ("fdp", "Antwort auf die Frage des Nutzers basierend auf den Positionen der Partei FDP");
    ("afd", "Antwort auf die Frage des Nutzers basierend auf den Positionen der Partei AfD") ].

(** What the builders use of a database object. *)
Record Database : Type := {
  source_type : string;
  build_context : value -> Z -> string;                  (* query, k *)
  get_documents_for_each_party : value -> Z -> value     (* query, k *)
}.

Section Builders.
Context `{Framework}.

(** The prompt of [generate_chain]. *)
Definition chain_prompt_template : string :=
  lines
    [ EmptyString;
      "    Du hilfst dabei, die politischen Positionen der Parteien CDU/CSU, SPD, Bündnis 90/Die Grünen, Die Linke, FDP und AfD zur Europawahl 2024 zusammenzufassen.";
      "    Beantworte die folgende Frage nur auf dem zur Verfügung gestellten Kontext.";
      "    Falls sich die Frage auf Basis des Kontexts nicht beantworten lässt, gib eine kurze Begründung an.";
      "    Beantworte die Frage auf Deutsch.";
      EmptyString;
      "    FRAGE: {question}";
      EmptyString;
      "    KONTEXT:";
      "    {context}";
      "    " ].

(** [generate_chain(retriever, llm, output_parser, verbose, temperature)].
    The source's defaults are [retriever=None], [llm=None],
    [output_parser="json"], [verbose=False] and [temperature=0.0]. *)
Definition generate_chain (retriever : option VectorStoreRetriever)
    (llm : option LLM) (output_parser : string) (verbose : bool)
    (temperature : float) : M Runnable :=
  let prompt_template := chain_prompt_template in
  (* If None, use default llm (gpt-3.5-turbo) *)
  llm <- match llm with
         | None =>
             emit (Construct_ChatOpenAI "gpt-3.5-turbo" 2000 temperature) ;;;
             ret (ChatOpenAI "gpt-3.5-turbo" 2000 temperature)
         | Some llm => ret llm
         end ;;
  selected <-
    (if output_parser =? "json" then
       let output_parser := JsonOutputParser PartySummaries in
       let prompt_template :=
         prompt_template ++ newline ++ newline ++ "{format_instructions}"
           ++ newline in
       question_prompt <-
         lift (PromptTemplate_init prompt_template ["question"; "context"]
                 [("format_instructions",
                   get_format_instructions PartySummaries)]) ;;
       ret (output_parser, question_prompt)
     else if output_parser =? "str" then
       let output_parser := StrOutputParser in
       question_prompt <- lift (PromptTemplate_from_template prompt_template) ;;
       ret (output_parser, question_prompt)
     else raise (ValueError "output_parser must be 'json' or 'str'")) ;;
  let output_parser := fst selected in
  let question_prompt := snd selected in
  (* Create chain that returns context *)
  let rag_chain_from_docs :=
    RunnablePassthrough_assign
      [("context", RunnableLambda (fun x => getitem x "context"))]
    |> question_prompt
    |> llm
    |> StrOutputParser in
  (* the mapping {"context": retriever, ...} coerces its values to steps *)
  retriever <- lift (coerce_to_runnable retriever) ;;
  let chain_with_source :=
    assign
      (RunnableParallel
         [("context", retriever); ("question", RunnablePassthrough)])
      [("answer", rag_chain_from_docs)] in
  (* Create chain without context return *)
  let chain :=
    RunnableParallel
      [("context", retriever); ("question", RunnablePassthrough)]
    |> question_prompt
    |> llm
    |> output_parser in
  if verbose then ret chain_with_source else ret chain.

(** The prompt of the balanced chain, after the f-string has put
    [language] in and turned its doubled braces into single ones. *)
Definition balanced_prompt_template (language : string) : string :=
  lines
    [ "   ";
      "    Beantworte die Frage und erstelle pro Partei eine Zusammenfassung der politischen Positionen von CDU/CSU, SPD, Bündnis 90/Die Grünen, Die Linke, FDP und AfD zur Europawahl 2024 auf Basis der Debatten im EU-Parlament und der EU-Wahlprogramme. ";
      "    Die Antwort soll strikt die Informationen aus den genannten Quellen widerspiegeln. ";
      "    Mach deutlich, die Antwort entspricht den Position der Parteien.";
      "    Gebe die Antwort auf " ++ language ++ ".";
      EmptyString;
      "    KONTEXT:";
      "    {context}";
      EmptyString;
      "        Sollten die oben genannten Quellen keine klare Antwort auf die unten genannte Frage zulassen, gib bitte folgende Rückmeldung: " ++ dquote ++ "Es wurde keine passende Antwort in den verfügbaren Daten gefunden." ++ dquote;
      "    Andernfalls gib wie oben beschrieben eine Zusammenfassung der Positionen der Parteien wieder, wodurch die nun folgende Frage beantwortet wird:";
      EmptyString;
      "    FRAGE: ";
      "    {question}";
      "    " ].

(** [lambda x: x["question"]] *)
Definition question_of (x : value) : M value := getitem x "question".

(** [lambda x: "\n\n".join([db.build_context(query=x["question"], k=k)
                            for db in dbs])] *)
Definition joined_context (dbs : list Database) (k : Z) (x : value) : M value :=
  parts <- for_each
             (fun i db =>
                query <- getitem x "question" ;;
                emit (Call_build_context i query k) ;;;
                ret (build_context db query k))
             0 dbs ;;
  ret (VStr (join (newline ++ newline) parts)).

(** [lambda x: {db.source_type: db.get_documents_for_each_party(
                  query=x["question"], k=k) for db in dbs}] *)
Definition docs_by_source (dbs : list Database) (k : Z) (x : value) : M value :=
  items <- for_each
             (fun i db =>
                let key := source_type db in
                query <- getitem x "question" ;;
                emit (Call_get_documents_for_each_party i query k) ;;;
                ret (key, get_documents_for_each_party db query k))
             0 dbs ;;
  ret (VDict (dict_of_items items)).

(** [generate_chain_with_balanced_retrieval(dbs, llm, output_parser,
    temperature, k, return_context, language)].  The source's defaults are
    [llm=None], [output_parser="json"], [temperature=0.0], [k=5],
    [return_context=False] and [language="Deutsch"]. *)
Definition generate_chain_with_balanced_retrieval (dbs : list Database)
    (llm : option LLM) (output_parser : string) (temperature : float)
    (k : Z) (return_context : bool) (language : string) : M Runnable :=
  llm <- match llm with
         | None =>
             emit (Construct_ChatOpenAI "gpt-3.5-turbo" 2000 temperature) ;;;
             ret (ChatOpenAI "gpt-3.5-turbo" 2000 temperature)
         | Some llm => ret llm
         end ;;
  let prompt_template := balanced_prompt_template language in
  (* select output parser *)
  selected <-
    (if output_parser =? "json" then
       let output_parser := JsonOutputParser PartySummaries in
       let prompt_template :=
         prompt_template ++ newline ++ newline ++ "{format_instructions}"
           ++ newline in
       question_prompt <-
         lift (PromptTemplate_init prompt_template ["question"; "context"]
                 [("format_instructions",
                   get_format_instructions PartySummaries)]) ;;
       ret (output_parser, question_prompt)
     else if output_parser =? "str" then
       let output_parser := StrOutputParser in
       question_prompt <- lift (PromptTemplate_from_template prompt_template) ;;
       ret (output_parser, question_prompt)
     else raise (ValueError "output_parser must be 'json' or 'str'")) ;;
  let output_parser := fst selected in
  let question_prompt := snd selected in
  if return_context then
    (* Create chain that returns context *)
    let prompting_chain :=
      RunnablePassthrough |> question_prompt |> llm |> output_parser in
    (* Returns a dict of question, context, and answer *)
    let full_chain :=
      RunnableParallel [("question", RunnablePassthrough)]
      |> assign
           (RunnableParallel
              [("question", RunnableLambda question_of);
               ("context", RunnableLambda (joined_context dbs k));
               ("docs", RunnableLambda (docs_by_source dbs k))])
           [("answer", prompting_chain)] in
    ret full_chain
  else
    (* Create chain without context return *)
    let input_chain :=
      RunnableParallel [("question", RunnablePassthrough)]
      |> RunnableParallel
           [("question", RunnableLambda question_of);
            ("context", RunnableLambda (joined_context dbs k))] in
    (* Returns a dict of question and answer *)
    let full_chain :=
      RunnableParallel
        [("question", RunnablePassthrough);
         ("answer", input_chain |> question_prompt |> llm |> output_parser)] in
    ret full_chain.

End Builders.

End Generation.

(* ================================================================== *)
(** ** Test doubles *)
(* ================================================================== *)

Module Stubs.
Import Python LangChain Generation.

(** A six-field payload and the text a model emits for it. *)
Definition summaries : value :=
  VDict [("cdu", VStr "c"); ("spd", VStr "s"); ("gruene", VStr "g");
         ("linke", VStr "l"); ("fdp", VStr "f"); ("afd", VStr "a")].

Definition quoted (s : string) : string := dquote ++ s ++ dquote.

Definition summaries_text : string :=
  "{" ++ join ", "
           (map (fun kv => quoted (fst kv) ++ ": " ++ quoted (snd kv))
              [("cdu", "c"); ("spd", "s"); ("gruene", "g");
               ("linke", "l"); ("fdp", "f"); ("afd", "a")])
      ++ "}".

(** A framework double: it reads the one payload above. *)
Definition framework : Framework := {|
  py_str := fun _ => "<object>";
  json_loads := fun text =>
    if text =? summaries_text then Some summaries else None;
  get_format_instructions := fun s => "Keys: " ++ join ", " (map fst s);
  missing_variables_message := fun missing expected received =>
    "Input to PromptTemplate is missing variables " ++ join ", " missing;
  validation_error_message := fun msg =>
    "1 validation error for PromptTemplate: " ++ msg;
  ChatOpenAI := fun _ _ _ _ => "default reply"
|}.

Definition retriever : VectorStoreRetriever :=
  fun _ => VList [VDocument "Solarenergie" []].

(** A model that always emits the payload, and one that echoes. *)
Definition json_llm : LLM := fun _ => summaries_text.
Definition echo_llm : LLM := fun prompt => prompt.

(** A database whose context is [text]. *)
Definition database (source text : string) : Database := {|
  source_type := source;
  build_context := fun _ _ => text;
  get_documents_for_each_party := fun _ _ =>
    VDict [("cdu", VList [VDocument text []])]
|}.

End Stubs.

(* ================================================================== *)
(** ** Vocabulary of the properties *)
(* ================================================================== *)

Import Python LangChain Generation.

(** The model a builder ends up with. *)
Definition the_llm `{Framework} (llm : option LLM) (temperature : float) : LLM :=
  match llm with
  | Some llm => llm
  | None => ChatOpenAI "gpt-3.5-turbo" 2000 temperature
  end.

(** What building adds to the log. *)
Definition construction (llm : option LLM) (temperature : float) : log :=
  match llm with
  | Some _ => []
  | None => [Construct_ChatOpenAI "gpt-3.5-turbo" 2000 temperature]
  end.

(** The stage after retrieval: fill the prompt, call the model, parse. *)
Definition prompting (question_prompt : Runnable) (llm : LLM)
    (output_parser : Runnable) : Runnable :=
  question_prompt |> llm |> output_parser.

(** The databases' texts, their join, their documents, and the calls that
    produce them, for one question. *)
Definition contexts (dbs : list Database) (question : value) (k : Z) : list string :=
  map (fun db => build_context db question k) dbs.

Definition blank_line : string := newline ++ newline.

Definition joined (dbs : list Database) (question : value) (k : Z) : string :=
  join blank_line (contexts dbs question k).

Definition documents (dbs : list Database) (question : value) (k : Z)
  : list (string * value) :=
  map (fun db => (source_type db, get_documents_for_each_party db question k)) dbs.

Definition build_context_calls (from n : nat) (question : value) (k : Z) : log :=
  map (fun i => Call_build_context i question k) (seq from n).

Definition get_documents_calls (from n : nat) (question : value) (k : Z) : log :=
  map (fun i => Call_get_documents_for_each_party i question k) (seq from n).

(** What the balanced chain hands to the prompting stage. *)
Definition retrieved (return_context : bool) (dbs : list Database)
    (question : value) (k : Z) : list (string * value) :=
  ([("question", question); ("context", VStr (joined dbs question k))]
   ++ (if return_context
       then [("docs", VDict (dict_of_items (documents dbs question k)))]
       else []))%list.

Definition retrieval_calls (return_context : bool) (dbs : list Database)
    (question : value) (k : Z) : log :=
  (build_context_calls 0 (length dbs) question k
   ++ (if return_context
       then get_documents_calls 0 (length dbs) question k
       else []))%list.

(** A computation whose result does not depend on the log it starts from
    and that only appends to it. *)
Definition oblivious {A} (m : M A) : Prop :=
  forall l, m l = (fst (m []), (l ++ snd (m []))%list).

(** Runnables all of whose lambdas are oblivious. *)
Inductive stateless : Runnable -> Prop :=
| stateless_passthrough : stateless RunnablePassthrough
| stateless_lambda f :
    (forall x, oblivious (f x)) -> stateless (RunnableLambda f)
| stateless_parallel steps :
    Forall (fun kv => stateless (snd kv)) steps ->
    stateless (RunnableParallel steps)
| stateless_sequence first last :
    stateless first -> stateless last -> stateless (first |> last)
| stateless_assign mapper :
    stateless mapper -> stateless (RunnableAssign mapper)
| stateless_retriever retriever : stateless (Retriever retriever)
| stateless_prompt template input_variables partial_variables :
    stateless (PromptTemplate template input_variables partial_variables)
| stateless_llm llm : stateless (ChatModel llm)
| stateless_str : stateless StrOutputParser
| stateless_json pydantic_object : stateless (JsonOutputParser pydantic_object).

(** A payload that carries every field of a schema as text. *)
Definition matches_schema (s : schema) (payload : value) : bool :=
  match payload with
  | VDict d =>
      forallb (fun field =>
                 match dict_get d (fst field) with
                 | Some (VStr _) => true
                 | _ => false
                 end) s
  | _ => false
  end.

(** The parser and the prompt a parser mode selects over a template, or
    the error for an unsupported mode. *)
Definition selection `{Framework} (output_parser : string)
    (prompt_template : string) : result (Runnable * Runnable) :=
  if output_parser =? "json" then
    match PromptTemplate_init
            (prompt_template ++ newline ++ newline ++ "{format_instructions}"
               ++ newline)
            ["question"; "context"]
            [("format_instructions", get_format_instructions PartySummaries)]
    with
    | Ok question_prompt => Ok (JsonOutputParser PartySummaries, question_prompt)
    | Raise e => Raise e
    end
  else if output_parser =? "str" then
    match PromptTemplate_from_template prompt_template with
    | Ok question_prompt => Ok (StrOutputParser, question_prompt)
    | Raise e => Raise e
    end
  else Raise (ValueError "output_parser must be 'json' or 'str'").

(** Append a batch of calls to the log. *)
Definition emit_all (evs : log) : M unit := fun l => (Ok tt, (l ++ evs)%list).

(** The [docs] entry of a result mapping. *)
Definition docs_of (out : value) : option value :=
  match out with
  | VDict d => dict_get d "docs"
  | _ => None
  end.

(** The prompt of [generate_chain] with its two fields filled in, and
    what the parser mode appends to it. *)
Definition chain_prompt_filled (question context appended : string) : string :=
  lines
    [ EmptyString;
      "    Du hilfst dabei, die politischen Positionen der Parteien CDU/CSU, SPD, Bündnis 90/Die Grünen, Die Linke, FDP und AfD zur Europawahl 2024 zusammenzufassen.";
      "    Beantworte die folgende Frage nur auf dem zur Verfügung gestellten Kontext.";
      "    Falls sich die Frage auf Basis des Kontexts nicht beantworten lässt, gib eine kurze Begründung an.";
      "    Beantworte die Frage auf Deutsch.";
      EmptyString;
      "    FRAGE: " ++ question;
      EmptyString;
      "    KONTEXT:";
      "    " ++ context;
      "    " ++ appended ].

(** What the structured mode appends: the format instructions. *)
Definition appended_instructions `{Framework} : string :=
  newline ++ newline ++ get_format_instructions PartySummaries ++ newline.

(** What a parser mode appends to the prompt, and how it reads a reply. *)
Definition appended_by `{Framework} (output_parser : string) : string :=
  if output_parser =? "json" then appended_instructions else "".

Definition parsed `{Framework} (output_parser : string) (raw : string)
  : result value :=
  if output_parser =? "json" then
    match json_loads raw with
    | Some payload => Ok payload
    | None => Raise OutputParserException
    end
  else Ok (VStr raw).

(** The prompt the model of [generate_chain] receives for a question. *)
Definition chain_prompt_for `{Framework} (retriever : VectorStoreRetriever)
    (output_parser : string) (question : value) : string :=
  chain_prompt_filled (format_arg question) (format_arg (retriever question))
    (appended_by output_parser).

(** The [docs] mapping as the specification words it: keyed by exactly
    the databases' source types, and holding under each database's source
    type that database's own documents. *)
Definition docs_mapping_claim `{Framework} (dbs : list Database)
    (llm : option LLM) (output_parser : string) (temperature : float)
    (k : Z) (language : string) : Prop :=
  forall l chain,
    outcome (generate_chain_with_balanced_retrieval
               dbs llm output_parser temperature k true language) l
    = Ok chain ->
    forall question l0 out,
      outcome (invoke chain question) l0 = Ok out ->
      exists docs,
        docs_of out = Some (VDict docs)
        /\ (forall s, In s (dict_keys docs) <-> In s (map source_type dbs))
        /\ (forall db, In db dbs ->
              dict_get docs (source_type db)
              = Some (get_documents_for_each_party db question k)).

(** A text without braces: literal text to a prompt template. *)
Fixpoint brace_free (s : string) : bool :=
  match s with
  | EmptyString => true
  | String c rest =>
      negb (Ascii.eqb c "{") && negb (Ascii.eqb c "}") && brace_free rest
  end.

(** The prompt of the balanced chain with language, context and question
    filled in, and what the parser mode appends to it. *)
Definition balanced_prompt_filled
    (language question context appended : string) : string :=
  lines
    [ "   ";
      "    Beantworte die Frage und erstelle pro Partei eine Zusammenfassung der politischen Positionen von CDU/CSU, SPD, Bündnis 90/Die Grünen, Die Linke, FDP und AfD zur Europawahl 2024 auf Basis der Debatten im EU-Parlament und der EU-Wahlprogramme. ";
      "    Die Antwort soll strikt die Informationen aus den genannten Quellen widerspiegeln. ";
      "    Mach deutlich, die Antwort entspricht den Position der Parteien.";
      "    Gebe die Antwort auf " ++ language ++ ".";
      EmptyString;
      "    KONTEXT:";
      "    " ++ context;
      EmptyString;
      "        Sollten die oben genannten Quellen keine klare Antwort auf die unten genannte Frage zulassen, gib bitte folgende Rückmeldung: " ++ dquote ++ "Es wurde keine passende Antwort in den verfügbaren Daten gefunden." ++ dquote;
      "    Andernfalls gib wie oben beschrieben eine Zusammenfassung der Positionen der Parteien wieder, wodurch die nun folgende Frage beantwortet wird:";
      EmptyString;
      "    FRAGE: ";
      "    " ++ question;
      "    " ++ appended ].




(** The fields of a template that continues after [names] were read. *)
Definition more_fields (names : list string) (r : result (list string))
  : result (list string) :=
  match r with
  | Ok rest => Ok (names ++ rest)%list
  | Raise e => Raise e
  end.

(** What the structured mode puts after a template. *)
Definition instructions_field : string :=
  newline ++ newline ++ "{format_instructions}" ++ newline.

(** A text that is a template on its own: each of its braces is doubled
    or delimits a keyword field (an ASCII name without conversion, format
    spec, attribute or index, not starting with a digit), and no field is
    named [stop]. *)
Definition well_formed (text : string) : bool :=
  match parse_fields Literal text with
  | Ok names => negb (existsb (String.eqb "stop") names)
  | Raise _ => false
  end.


(* ================================================================== *)
(** ** The call-log monad *)
(* ================================================================== *)

Section Monad_laws.
Context {A B : Type}.

Lemma bind_ok (m : M A) (f : A -> M B) l a l' :
  m l = (Ok a, l') -> bind m f l = f a l'.
Proof. intros E. unfold bind. rewrite E. reflexivity. Qed.

Lemma oblivious_ret (a : A) : oblivious (ret a).
Proof. intros l. unfold ret. simpl. rewrite app_nil_r. reflexivity. Qed.

Lemma oblivious_raise (e : exn) : oblivious (@raise A e).
Proof. intros l. unfold raise. simpl. rewrite app_nil_r. reflexivity. Qed.

Lemma oblivious_lift (r : result A) : oblivious (lift r).
Proof. destruct r; [apply oblivious_ret | apply oblivious_raise]. Qed.

Lemma oblivious_bind (m : M A) (f : A -> M B) :
  oblivious m -> (forall a, oblivious (f a)) -> oblivious (bind m f).
Proof.
  intros Hm Hf l. unfold bind.
  rewrite (Hm l). destruct (m []) as [[a | e] s]; simpl.
  - rewrite (Hf a (l ++ s)%list), (Hf a s). simpl.
    rewrite app_assoc. reflexivity.
  - reflexivity.
Qed.
End Monad_laws.

Lemma oblivious_emit ev : oblivious (emit ev).
Proof. intros l. reflexivity. Qed.

Lemma oblivious_for_each {A B} (f : nat -> A -> M B) xs :
  (forall i x, oblivious (f i x)) -> forall i, oblivious (for_each f i xs).
Proof.
  intros Hf. induction xs as [| x xs IH]; intros i; simpl.
  - apply oblivious_ret.
  - apply oblivious_bind; [apply Hf |]. intros y.
    apply oblivious_bind; [apply IH |]. intros ys. apply oblivious_ret.
Qed.

Lemma oblivious_getitem x key : oblivious (getitem x key).
Proof.
  destruct x; simpl; try apply oblivious_raise.
  destruct (dict_get entries key); [apply oblivious_ret | apply oblivious_raise].
Qed.

Create HintDb oblivious.
#[local] Hint Resolve oblivious_ret oblivious_raise oblivious_lift
  oblivious_emit oblivious_getitem : oblivious.

(** Running from any log is running from the empty log, shifted. *)
Lemma oblivious_outcome {A} (m : M A) l :
  oblivious m -> outcome m l = outcome m [].
Proof. intros Hm. unfold outcome. rewrite (Hm l). reflexivity. Qed.

Lemma oblivious_calls {A} (m : M A) l :
  oblivious m -> calls m l = (l ++ calls m [])%list.
Proof. intros Hm. unfold calls. rewrite (Hm l). reflexivity. Qed.

(* ================================================================== *)
(** ** Runnables: induction and statelessness *)
(* ================================================================== *)

Section Runnable_induction.
Variable P : Runnable -> Prop.
Hypothesis P_passthrough : P RunnablePassthrough.
Hypothesis P_lambda : forall f, P (RunnableLambda f).
Hypothesis P_parallel :
  forall steps, Forall (fun kv => P (snd kv)) steps -> P (RunnableParallel steps).
Hypothesis P_sequence : forall a b, P a -> P b -> P (a |> b).
Hypothesis P_assign : forall m, P m -> P (RunnableAssign m).
Hypothesis P_retriever : forall r, P (Retriever r).
Hypothesis P_prompt : forall t iv pv, P (PromptTemplate t iv pv).
Hypothesis P_llm : forall llm, P (ChatModel llm).
Hypothesis P_str : P StrOutputParser.
Hypothesis P_json : forall s, P (JsonOutputParser s).

Fixpoint Runnable_nested_ind (r : Runnable) : P r :=
  match r with
  | RunnablePassthrough => P_passthrough
  | RunnableLambda f => P_lambda f
  | RunnableParallel steps =>
      P_parallel steps
        ((fix go (ss : list (string * Runnable))
            : Forall (fun kv => P (snd kv)) ss :=
            match ss with
            | [] => Forall_nil _
            | kv :: ss' =>
                Forall_cons kv (Runnable_nested_ind (snd kv)) (go ss')
            end) steps)
  | RunnableSequence a b =>
      P_sequence a b (Runnable_nested_ind a) (Runnable_nested_ind b)
  | RunnableAssign m => P_assign m (Runnable_nested_ind m)
  | Retriever r => P_retriever r
  | PromptTemplate t iv pv => P_prompt t iv pv
  | ChatModel llm => P_llm llm
  | StrOutputParser => P_str
  | JsonOutputParser s => P_json s
  end.
End Runnable_induction.

Section Invoke.
Context `{Framework}.

Lemma invoke_parallel steps input l :
  invoke (RunnableParallel steps) input l
  = (d <- invoke_steps steps input ;; ret (VDict d)) l.
Proof.
  cbn [invoke].
  match goal with
  | |- bind (?go steps) _ l = _ =>
      assert (E : forall ss l0, go ss l0 = invoke_steps ss input l0)
  end.
  { induction ss as [| [key step] ss IH]; intros l0; [reflexivity |].
    cbn [invoke_steps]. unfold bind.
    destruct (invoke step input l0) as [[v | e] l1]; [| reflexivity].
    rewrite IH. reflexivity. }
  unfold bind. rewrite E. reflexivity.
Qed.

Lemma oblivious_check_input_variables iv d :
  oblivious (check_input_variables iv d).
Proof.
  unfold check_input_variables.
  destruct (missing_variables iv d); auto with oblivious.
Qed.

Lemma oblivious_validate_input iv input : oblivious (validate_input iv input).
Proof.
  destruct input; simpl; try apply oblivious_check_input_variables;
    destruct iv as [| var [| ? ?]];
    auto using oblivious_check_input_variables with oblivious.
Qed.

Lemma oblivious_invoke_prompt t iv pv input :
  oblivious (invoke_prompt t iv pv input).
Proof.
  unfold invoke_prompt.
  apply oblivious_bind; [apply oblivious_validate_input |]. intros kwargs.
  apply oblivious_bind; [apply oblivious_lift |]. intros text.
  apply oblivious_ret.
Qed.

Lemma oblivious_invoke_llm llm input : oblivious (invoke_llm llm input).
Proof.
  destruct input; simpl; auto with oblivious;
    (apply oblivious_bind; [apply oblivious_emit | intros; apply oblivious_ret]).
Qed.

Lemma oblivious_invoke_retriever r input : oblivious (invoke_retriever r input).
Proof.
  unfold invoke_retriever.
  apply oblivious_bind; [apply oblivious_emit | intros; apply oblivious_ret].
Qed.

Lemma oblivious_generation_text input : oblivious (generation_text input).
Proof. destruct input; simpl; auto with oblivious. Qed.

Lemma oblivious_parse_str input : oblivious (parse_str input).
Proof.
  unfold parse_str.
  apply oblivious_bind; [apply oblivious_generation_text |].
  intros; apply oblivious_ret.
Qed.

Lemma oblivious_parse_json input : oblivious (parse_json input).
Proof.
  unfold parse_json.
  apply oblivious_bind; [apply oblivious_generation_text |]. intros text.
  destruct (json_loads text); auto with oblivious.
Qed.

Lemma oblivious_merge_assigned input out : oblivious (merge_assigned input out).
Proof. destruct input, out; simpl; auto with oblivious. Qed.

(** A stateless runnable's result depends on its input only. *)
Lemma stateless_oblivious r :
  stateless r -> forall input, oblivious (invoke r input).
Proof.
  induction r using Runnable_nested_ind; intros S input;
    inversion S; subst; clear S.
  - apply oblivious_ret.
  - simpl. auto.
  - intros l. rewrite !invoke_parallel. revert l.
    apply oblivious_bind; [| intros; apply oblivious_ret].
    match goal with HS : Forall (fun kv => stateless _) _ |- _ => rename HS into S end.
    induction steps as [| [key step] steps IH]; simpl.
    + apply oblivious_ret.
    + inversion H0; inversion S; subst.
      apply oblivious_bind; [auto |]. intros v.
      apply oblivious_bind; [auto |]. intros d. apply oblivious_ret.
  - simpl. apply oblivious_bind; auto.
  - destruct input; cbn [invoke]; auto with oblivious.
    apply oblivious_bind; [auto |]. intros out. apply oblivious_merge_assigned.
  - apply oblivious_invoke_retriever.
  - apply oblivious_invoke_prompt.
  - apply oblivious_invoke_llm.
  - apply oblivious_parse_str.
  - apply oblivious_parse_json.
Qed.
End Invoke.

(* ================================================================== *)
(** ** Templates *)
(* ================================================================== *)

Lemma string_app_assoc (a b c : string) : (a ++ b) ++ c = a ++ b ++ c.
Proof. induction a as [| ch a IH]; simpl; [| rewrite IH]; reflexivity. Qed.

Lemma string_app_empty (s : string) : s ++ "" = s.
Proof. induction s as [| c s IH]; simpl; [| rewrite IH]; reflexivity. Qed.


(** Split a string term at its first symbolic part. *)
Ltac split_literal t :=
  lazymatch t with
  | String ?c ?rest =>
      let r := split_literal rest in
      lazymatch r with
      | (?h, ?x) => constr:((String c h, x))
      end
  | _ => constr:((EmptyString, t))
  end.

Lemma brace_free_inv c s :
  brace_free (String c s) = true ->
  Ascii.eqb c "{" = false /\ Ascii.eqb c "}" = false /\ brace_free s = true.
Proof.
  simpl. intros Free.
  apply andb_prop in Free. destruct Free as [Free Rest].
  apply andb_prop in Free. destruct Free as [Open Close].
  apply negb_true_iff in Open, Close. auto.
Qed.


(** Brace-free text holds no field. *)
Lemma parse_fields_literal_app s rest :
  brace_free s = true ->
  parse_fields Literal (s ++ rest) = parse_fields Literal rest.
Proof.
  induction s as [| c s IH]; intros Free; [reflexivity |].
  destruct (brace_free_inv c s Free) as (Open & Close & Rest).
  change (String c s ++ rest) with (String c (s ++ rest)).
  cbn [parse_fields]. rewrite Open, Close. apply IH, Rest.
Qed.

(** A text that parses on its own parses the same way at the head of a
    longer template, which goes on from literal text. *)
Lemma parse_fields_app s : forall st names rest,
  parse_fields st s = Ok names ->
  parse_fields st (s ++ rest) = more_fields names (parse_fields Literal rest).
Proof.
  induction s as [| c s IH]; intros st names rest Parsed.
  - destruct st; simpl in Parsed; try discriminate Parsed.
    injection Parsed as <-. simpl.
    destruct (parse_fields Literal rest); reflexivity.
  - change (String c s ++ rest) with (String c (s ++ rest)).
    destruct st as [| | name |]; cbn [parse_fields] in Parsed |- *.
    + destruct (Ascii.eqb c "{"); [apply IH, Parsed |].
      destruct (Ascii.eqb c "}"); apply IH, Parsed.
    + destruct (Ascii.eqb c "{"); [apply IH, Parsed |].
      destruct (Ascii.eqb c "}"); [discriminate Parsed |].
      destruct (is_field_syntax c || is_digit c); [discriminate Parsed |].
      apply IH, Parsed.
    + destruct (Ascii.eqb c "}").
      * destruct (parse_fields Literal s) as [inner | e] eqn:Inner;
          [| discriminate Parsed].
        injection Parsed as <-. rewrite (IH Literal inner rest Inner).
        destruct (parse_fields Literal rest); reflexivity.
      * destruct (Ascii.eqb c "{"); [discriminate Parsed |].
        destruct (is_field_syntax c); [discriminate Parsed |].
        apply IH, Parsed.
    + destruct (Ascii.eqb c "}"); [apply IH, Parsed | discriminate Parsed].
Qed.

Lemma brace_free_fields s :
  brace_free s = true -> parse_fields Literal s = Ok [].
Proof.
  intros Free. rewrite <- (string_app_empty s).
  rewrite parse_fields_literal_app by exact Free. reflexivity.
Qed.

Lemma brace_free_well_formed s :
  brace_free s = true -> well_formed s = true.
Proof.
  intros Free. unfold well_formed. rewrite brace_free_fields by exact Free.
  reflexivity.
Qed.

Lemma not_reserved names :
  ~ In "stop" names -> existsb (String.eqb "stop") names = false.
Proof.
  intros Not. destruct (existsb _ names) eqn:E; [| reflexivity].
  exfalso. apply existsb_exists in E. destruct E as (name & Hin & E).
  apply String.eqb_eq in E. subst name. exact (Not Hin).
Qed.




(** Sorting keeps the names. *)
Lemma in_insort name names x :
  In x (insort name names) <-> x = name \/ In x names.
Proof.
  induction names as [| n names IH]; simpl.
  - intuition.
  - destruct (String.leb name n); simpl; [intuition |].
    rewrite IH. intuition.
Qed.

Lemma in_sorted names x : In x (sorted names) <-> In x names.
Proof.
  induction names as [| n names IH]; simpl; [reflexivity |].
  rewrite in_insort, IH. intuition.
Qed.

(** The balanced template is literal text, the language, and a tail that
    holds the two fields of the source. *)
Lemma balanced_template_split :
  exists head tail,
    brace_free head = true
    /\ parse_fields Literal tail = Ok ["context"; "question"]
    /\ parse_fields Literal (tail ++ instructions_field)
       = Ok ["context"; "question"; "format_instructions"]
    /\ forall language,
         balanced_prompt_template language = head ++ language ++ tail.
Proof.
  do 2 eexists. split; [| split; [| split]].
  4: { intros language.
       let t0 := eval cbv beta delta [balanced_prompt_template lines]
                   in (balanced_prompt_template language) in
       let t := eval simpl in t0 in
       assert (E : balanced_prompt_template language = t) by reflexivity.
       rewrite string_app_assoc in E. simpl in E.
       lazymatch type of E with
       | _ = ?t' =>
           let r := split_literal t' in
           lazymatch r with
           | (?h, ?x) => change t' with (h ++ x) in E
           end
       end.
       exact E. }
  all: vm_compute; reflexivity.
Qed.

(** The fields of the balanced template: those of the language, then the
    two of the source, then the one of the structured mode. *)
Lemma balanced_template_fields language names :
  parse_fields Literal language = Ok names ->
  parse_fields Literal (balanced_prompt_template language)
  = Ok (names ++ ["context"; "question"])%list
  /\ parse_fields Literal (balanced_prompt_template language ++ instructions_field)
     = Ok (names ++ ["context"; "question"; "format_instructions"])%list.
Proof.
  intros Parsed.
  destruct balanced_template_split as (head & tail & Free & Str & Json & Split).
  rewrite Split, !string_app_assoc.
  rewrite (parse_fields_literal_app head (language ++ tail) Free).
  rewrite (parse_fields_literal_app head _ Free).
  rewrite (parse_fields_app language Literal names tail Parsed), Str.
  rewrite (parse_fields_app language Literal names _ Parsed), Json.
  split; reflexivity.
Qed.

(* ================================================================== *)
(** ** Building *)
(* ================================================================== *)

Section Building.
Context `{Framework}.

(** The constructor keeps the template and the partial variables. *)
Lemma PromptTemplate_init_shape template given partial_variables prompt :
  PromptTemplate_init template given partial_variables = Ok prompt ->
  exists input_variables,
    prompt = PromptTemplate template input_variables partial_variables.
Proof.
  unfold PromptTemplate_init.
  destruct (get_template_variables template) as [variables | [| | | | |]];
    try discriminate.
  destruct (existsb _ (filter _ variables)); [discriminate |].
  destruct (existsb _ (dict_keys partial_variables)); [discriminate |].
  intros [= <-]. eexists. reflexivity.
Qed.

(** It accepts a template that parses and has no variable named [stop]. *)
Lemma PromptTemplate_init_accepts template given partial_variables names :
  parse_fields Literal template = Ok names ->
  ~ In "stop" names ->
  ~ In "stop" (dict_keys partial_variables) ->
  PromptTemplate_init template given partial_variables
  = Ok (PromptTemplate template
          (filter (fun var => match dict_get partial_variables var with
                              | Some _ => false
                              | None => true
                              end)
             (sorted (nodup string_dec names)))
          partial_variables).
Proof.
  intros Parsed Free Partial.
  unfold PromptTemplate_init, get_template_variables. rewrite Parsed.
  rewrite not_reserved.
  - rewrite (not_reserved _ Partial). reflexivity.
  - intros Hin. apply filter_In in Hin. destruct Hin as [Hin _].
    apply in_sorted, nodup_In in Hin. exact (Free Hin).
Qed.

Lemma PromptTemplate_from_template_accepts template names :
  parse_fields Literal template = Ok names ->
  ~ In "stop" names ->
  PromptTemplate_from_template template
  = Ok (PromptTemplate template (sorted (nodup string_dec names)) []).
Proof.
  intros Parsed Free. unfold PromptTemplate_from_template.
  unfold get_template_variables. rewrite Parsed.
  rewrite (PromptTemplate_init_accepts template _ [] names Parsed Free)
    by (intros []).
  cbn [dict_get].
  replace (filter (fun _ : string => true) (sorted (nodup string_dec names)))
    with (sorted (nodup string_dec names)); [reflexivity |].
  induction (sorted (nodup string_dec names)) as [| n ns IH];
    [reflexivity |].
  simpl. rewrite <- IH. reflexivity.
Qed.

(** A selected parser is the one of the mode, the prompt is a template. *)
Lemma selection_shape output_parser prompt_template parser prompt :
  selection output_parser prompt_template = Ok (parser, prompt) ->
  (exists template input_variables partial_variables,
     prompt = PromptTemplate template input_variables partial_variables)
  /\ (output_parser = "json" /\ parser = JsonOutputParser PartySummaries
      \/ output_parser = "str" /\ parser = StrOutputParser).
Proof.
  unfold selection, PromptTemplate_from_template.
  destruct (String.eqb_spec output_parser "json") as [-> | _].
  - destruct (PromptTemplate_init _ _ _) as [question_prompt | e] eqn:Init;
      [| discriminate].
    destruct (PromptTemplate_init_shape _ _ _ _ Init) as [iv ->].
    intros [= <- <-]. split; [do 3 eexists | left; split]; reflexivity.
  - destruct (String.eqb_spec output_parser "str") as [-> | _]; [| discriminate].
    destruct (get_template_variables _) as [variables | e]; [| discriminate].
    destruct (PromptTemplate_init _ _ _) as [question_prompt | e] eqn:Init;
      [| discriminate].
    destruct (PromptTemplate_init_shape _ _ _ _ Init) as [iv ->].
    intros [= <- <-]. split; [do 3 eexists | right; split]; reflexivity.
Qed.

Lemma selection_other output_parser prompt_template :
  output_parser <> "json" -> output_parser <> "str" ->
  selection output_parser prompt_template
  = Raise (ValueError "output_parser must be 'json' or 'str'").
Proof.
  intros Hj Hs. unfold selection.
  destruct (String.eqb_spec output_parser "json"); [contradiction |].
  destruct (String.eqb_spec output_parser "str"); [contradiction |].
  reflexivity.
Qed.

(** The template of [generate_chain] parses: both modes select. *)
Lemma selection_chain_json :
  selection "json" chain_prompt_template
  = Ok (JsonOutputParser PartySummaries,
        PromptTemplate
          (chain_prompt_template ++ newline ++ newline ++ "{format_instructions}"
             ++ newline)
          ["context"; "question"]
          [("format_instructions", get_format_instructions PartySummaries)]).
Proof. vm_compute. reflexivity. Qed.

Lemma selection_chain_str :
  selection "str" chain_prompt_template
  = Ok (StrOutputParser,
        PromptTemplate chain_prompt_template ["context"; "question"] []).
Proof. vm_compute. reflexivity. Qed.


(** The template of the balanced chain is accepted when the language is
    well-formed on its own. *)
Lemma selection_balanced_json language names :
  parse_fields Literal language = Ok names ->
  ~ In "stop" names ->
  selection "json" (balanced_prompt_template language)
  = Ok (JsonOutputParser PartySummaries,
        PromptTemplate
          (balanced_prompt_template language ++ newline ++ newline
             ++ "{format_instructions}" ++ newline)
          (filter (fun var =>
                     match dict_get
                             [("format_instructions",
                               get_format_instructions PartySummaries)] var with
                     | Some _ => false
                     | None => true
                     end)
             (sorted (nodup string_dec
                        (names ++ ["context"; "question";
                                   "format_instructions"])%list)))
          [("format_instructions", get_format_instructions PartySummaries)]).
Proof.
  intros Parsed Free.
  destruct (balanced_template_fields language names Parsed) as [_ Json].
  unfold selection.
  change ("json" =? "json") with true. cbv iota.
  change (newline ++ newline ++ "{format_instructions}" ++ newline)
    with instructions_field.
  rewrite (PromptTemplate_init_accepts _ _ _ _ Json); [reflexivity | |].
  - intros Hin. apply in_app_or in Hin. destruct Hin as [Hin | Hin];
      [exact (Free Hin) |].
    simpl in Hin. intuition discriminate.
  - simpl. intuition discriminate.
Qed.

Lemma selection_balanced_str language names :
  parse_fields Literal language = Ok names ->
  ~ In "stop" names ->
  selection "str" (balanced_prompt_template language)
  = Ok (StrOutputParser,
        PromptTemplate (balanced_prompt_template language)
          (sorted (nodup string_dec (names ++ ["context"; "question"])%list))
          []).
Proof.
  intros Parsed Free.
  destruct (balanced_template_fields language names Parsed) as [Str _].
  unfold selection.
  change ("str" =? "json") with false. change ("str" =? "str") with true.
  cbv iota.
  rewrite (PromptTemplate_from_template_accepts _ _ Str); [reflexivity |].
  intros Hin. apply in_app_or in Hin. destruct Hin as [Hin | Hin];
    [exact (Free Hin) |].
  simpl in Hin. intuition discriminate.
Qed.


(** With a brace-free language the input variables are the two of the
    source. *)
Lemma selection_balanced_plain_json language :
  brace_free language = true ->
  selection "json" (balanced_prompt_template language)
  = Ok (JsonOutputParser PartySummaries,
        PromptTemplate
          (balanced_prompt_template language ++ newline ++ newline
             ++ "{format_instructions}" ++ newline)
          ["context"; "question"]
          [("format_instructions", get_format_instructions PartySummaries)]).
Proof.
  intros Free.
  rewrite (selection_balanced_json language [] (brace_free_fields _ Free))
    by (intros []).
  reflexivity.
Qed.

Lemma selection_balanced_plain_str language :
  brace_free language = true ->
  selection "str" (balanced_prompt_template language)
  = Ok (StrOutputParser,
        PromptTemplate (balanced_prompt_template language)
          ["context"; "question"] []).
Proof.
  intros Free.
  rewrite (selection_balanced_str language [] (brace_free_fields _ Free))
    by (intros []).
  reflexivity.
Qed.

Lemma selection_stateless output_parser prompt_template parser prompt :
  selection output_parser prompt_template = Ok (parser, prompt) ->
  stateless parser /\ stateless prompt.
Proof.
  intros Sel.
  destruct (selection_shape _ _ _ _ Sel)
    as [(template & iv & pv & ->) [[_ ->] | [_ ->]]];
    split; constructor.
Qed.

(** What [generate_chain] does over a selection: with a retriever it
    returns one of its two pipelines, without one the coercion of the
    [context] step raises. *)
Lemma generate_chain_build retriever llm output_parser verbose temperature l :
  generate_chain retriever llm output_parser verbose temperature l
  = (match selection output_parser chain_prompt_template with
     | Ok (parser, prompt) =>
         match retriever with
         | Some retriever =>
             Ok (if verbose then
                   assign
                     (RunnableParallel
                        [("context", Retriever retriever);
                         ("question", RunnablePassthrough)])
                     [("answer",
                       RunnablePassthrough_assign
                         [("context",
                           RunnableLambda (fun x => getitem x "context"))]
                       |> prompt |> the_llm llm temperature |> StrOutputParser)]
                 else
                   RunnableParallel
                     [("context", Retriever retriever);
                      ("question", RunnablePassthrough)]
                   |> prompt |> the_llm llm temperature |> parser)
         | None => Raise TypeError
         end
     | Raise e => Raise e
     end, (l ++ construction llm temperature)%list).
Proof.
  unfold generate_chain, selection, bind.
  destruct llm as [llm |]; cbn [emit ret raise the_llm construction];
    rewrite ?app_nil_r;
    (destruct (output_parser =? "json");
     [destruct (PromptTemplate_init _ _ _) as [question_prompt | e]
     | destruct (output_parser =? "str");
       [destruct (PromptTemplate_from_template _) as [question_prompt | e] |]]);
    cbn [lift ret raise fst snd]; try reflexivity;
    destruct retriever as [retriever |]; cbn [coerce_to_runnable lift ret raise];
    try reflexivity; destruct verbose; reflexivity.
Qed.

(** The pipeline [generate_chain] returns when a retriever is given. *)
Lemma generate_chain_run (retriever : VectorStoreRetriever)
    llm output_parser verbose temperature l :
  generate_chain retriever llm output_parser verbose temperature l
  = (match selection output_parser chain_prompt_template with
     | Ok (parser, prompt) =>
         Ok (if verbose then
               assign
                 (RunnableParallel
                    [("context", Retriever retriever);
                     ("question", RunnablePassthrough)])
                 [("answer",
                   RunnablePassthrough_assign
                     [("context", RunnableLambda (fun x => getitem x "context"))]
                   |> prompt |> the_llm llm temperature |> StrOutputParser)]
             else
               RunnableParallel
                 [("context", Retriever retriever);
                  ("question", RunnablePassthrough)]
               |> prompt |> the_llm llm temperature |> parser)
     | Raise e => Raise e
     end, (l ++ construction llm temperature)%list).
Proof.
  rewrite generate_chain_build. unfold given.
  destruct (selection output_parser chain_prompt_template) as [[parser prompt] | e];
    reflexivity.
Qed.

(** The pipeline [generate_chain_with_balanced_retrieval] returns. *)
Lemma generate_chain_with_balanced_retrieval_run
    dbs llm output_parser temperature k return_context language l :
  generate_chain_with_balanced_retrieval
    dbs llm output_parser temperature k return_context language l
  = (match selection output_parser (balanced_prompt_template language) with
     | Ok (parser, prompt) =>
         Ok (if return_context then
               RunnableParallel [("question", RunnablePassthrough)]
               |> assign
                    (RunnableParallel
                       [("question", RunnableLambda question_of);
                        ("context", RunnableLambda (joined_context dbs k));
                        ("docs", RunnableLambda (docs_by_source dbs k))])
                    [("answer",
                      RunnablePassthrough |> prompt
                      |> the_llm llm temperature |> parser)]
             else
               RunnableParallel
                 [("question", RunnablePassthrough);
                  ("answer",
                   RunnableParallel [("question", RunnablePassthrough)]
                   |> RunnableParallel
                        [("question", RunnableLambda question_of);
                         ("context", RunnableLambda (joined_context dbs k))]
                   |> prompt |> the_llm llm temperature |> parser)])
     | Raise e => Raise e
     end, (l ++ construction llm temperature)%list).
Proof.
  unfold generate_chain_with_balanced_retrieval, selection, bind.
  destruct llm as [llm |]; cbn [emit ret raise the_llm construction];
    rewrite ?app_nil_r;
    (destruct (output_parser =? "json");
     [destruct (PromptTemplate_init _ _ _) as [question_prompt | e]
     | destruct (output_parser =? "str");
       [destruct (PromptTemplate_from_template _) as [question_prompt | e] |]]);
    cbn [lift ret raise fst snd]; try reflexivity;
    destruct return_context; reflexivity.
Qed.
End Building.

(* ================================================================== *)
(** ** Invoking *)
(* ================================================================== *)

Section Invoking.
Context `{Framework}.

(** The list comprehension over the databases' contexts. *)
Lemma build_contexts_run dbs k question : forall i l,
  for_each
    (fun i db =>
       query <- getitem (VDict [("question", question)]) "question" ;;
       emit (Call_build_context i query k) ;;;
       ret (build_context db query k)) i dbs l
  = (Ok (contexts dbs question k),
     (l ++ build_context_calls i (length dbs) question k)%list).
Proof.
  induction dbs as [| db dbs IH]; intros i l; simpl.
  - rewrite app_nil_r. reflexivity.
  - unfold bind at 1. simpl. unfold bind at 1. rewrite IH. simpl.
    rewrite <- app_assoc. reflexivity.
Qed.

Lemma joined_context_run dbs k question l :
  joined_context dbs k (VDict [("question", question)]) l
  = (Ok (VStr (joined dbs question k)),
     (l ++ build_context_calls 0 (length dbs) question k)%list).
Proof.
  unfold joined_context.
  erewrite bind_ok by apply build_contexts_run. reflexivity.
Qed.

(** The dict comprehension over the databases' documents. *)
Lemma get_documents_run dbs k question : forall i l,
  for_each
    (fun i db =>
       let key := source_type db in
       query <- getitem (VDict [("question", question)]) "question" ;;
       emit (Call_get_documents_for_each_party i query k) ;;;
       ret (key, get_documents_for_each_party db query k)) i dbs l
  = (Ok (documents dbs question k),
     (l ++ get_documents_calls i (length dbs) question k)%list).
Proof.
  induction dbs as [| db dbs IH]; intros i l; simpl.
  - rewrite app_nil_r. reflexivity.
  - unfold bind at 1. simpl. unfold bind at 1. rewrite IH. simpl.
    rewrite <- app_assoc. reflexivity.
Qed.

Lemma docs_by_source_run dbs k question l :
  docs_by_source dbs k (VDict [("question", question)]) l
  = (Ok (VDict (dict_of_items (documents dbs question k))),
     (l ++ get_documents_calls 0 (length dbs) question k)%list).
Proof.
  unfold docs_by_source.
  erewrite bind_ok by apply get_documents_run. reflexivity.
Qed.

Variables (prompt parser : Runnable) (llm : LLM).

(** [chain]: retrieve, then prompt, model and parser. *)
Lemma invoke_chain (retriever : VectorStoreRetriever) question l :
  invoke
    (RunnableParallel
       [("context", Retriever retriever); ("question", RunnablePassthrough)]
     |> prompt |> llm |> parser) question l
  = (emit (Call_retriever question) ;;;
     invoke (prompting prompt llm parser)
       (VDict [("context", retriever question); ("question", question)])) l.
Proof. reflexivity. Qed.

(** [chain_with_source]: the answer goes through [StrOutputParser]. *)
Lemma invoke_chain_with_source (retriever : VectorStoreRetriever) question l :
  invoke
    (assign
       (RunnableParallel
          [("context", Retriever retriever); ("question", RunnablePassthrough)])
       [("answer",
         RunnablePassthrough_assign
           [("context", RunnableLambda (fun x => getitem x "context"))]
         |> prompt |> llm |> StrOutputParser)]) question l
  = (emit (Call_retriever question) ;;;
     answer <- invoke (prompting prompt llm StrOutputParser)
                 (VDict [("context", retriever question); ("question", question)]) ;;
     ret (VDict [("context", retriever question); ("question", question);
                 ("answer", answer)])) l.
Proof.
  unfold assign, RunnablePassthrough_assign, prompting.
  cbn [invoke]. unfold invoke_retriever, bind, emit, ret. cbn.
  destruct (invoke prompt _ _) as [[p | e] l1]; [| reflexivity].
  destruct (invoke_llm llm p l1) as [[m | e] l2]; [| reflexivity].
  destruct (parse_str m l2) as [[a | e] l3]; reflexivity.
Qed.
End Invoking.

Section Invoking_balanced.
Context `{Framework}.
Variables (prompt parser : Runnable) (llm : LLM).
Variables (dbs : list Database) (k : Z).

Ltac run_prompting :=
  destruct (invoke prompt _ _) as [[?p | ?e] ?l]; [| reflexivity];
  destruct (invoke_llm llm _ _) as [[?m | ?e] ?l]; [| reflexivity];
  destruct (invoke parser _ _) as [[?a | ?e] ?l]; reflexivity.

(** [full_chain] without context: question and answer. *)
Lemma invoke_full_chain_without_context question l :
  invoke
    (RunnableParallel
       [("question", RunnablePassthrough);
        ("answer",
         RunnableParallel [("question", RunnablePassthrough)]
         |> RunnableParallel
              [("question", RunnableLambda question_of);
               ("context", RunnableLambda (joined_context dbs k))]
         |> prompt |> llm |> parser)]) question l
  = (emit_all (retrieval_calls false dbs question k) ;;;
     answer <- invoke (prompting prompt llm parser)
                 (VDict (retrieved false dbs question k)) ;;
     ret (VDict [("question", question); ("answer", answer)])) l.
Proof.
  unfold prompting, retrieval_calls, retrieved.
  cbn [invoke]. unfold bind, ret, emit_all, question_of.
  cbn [getitem dict_get]. change ("question" =? "question") with true.
  cbv iota. unfold ret. rewrite joined_context_run, !app_nil_r.
  run_prompting.
Qed.

(** [full_chain] with context: question, context, docs and answer. *)
Lemma invoke_full_chain_with_context question l :
  invoke
    (RunnableParallel [("question", RunnablePassthrough)]
     |> assign
          (RunnableParallel
             [("question", RunnableLambda question_of);
              ("context", RunnableLambda (joined_context dbs k));
              ("docs", RunnableLambda (docs_by_source dbs k))])
          [("answer", RunnablePassthrough |> prompt |> llm |> parser)])
    question l
  = (emit_all (retrieval_calls true dbs question k) ;;;
     answer <- invoke (prompting prompt llm parser)
                 (VDict (retrieved true dbs question k)) ;;
     ret (VDict (retrieved true dbs question k ++ [("answer", answer)])%list)) l.
Proof.
  unfold assign, prompting, retrieval_calls, retrieved.
  cbn [invoke]. unfold bind, ret, emit_all, question_of.
  cbn [getitem dict_get]. change ("question" =? "question") with true.
  cbv iota. unfold ret.
  rewrite joined_context_run, docs_by_source_run, <- app_assoc.
  cbn [app].
  destruct (invoke prompt _ _) as [[?p | ?e] ?l]; [| reflexivity].
  destruct (invoke_llm llm _ _) as [[?m | ?e] ?l]; [| reflexivity].
  destruct (invoke parser _ _) as [[?a | ?e] ?l]; reflexivity.
Qed.
End Invoking_balanced.

Section Prompts.
Context `{Framework}.

(** The plain-text prompt of [generate_chain] always formats. *)
Lemma invoke_chain_prompt_str question context l :
  invoke (PromptTemplate chain_prompt_template ["context"; "question"] [])
    (VDict [("context", context); ("question", question)]) l
  = (Ok (VPrompt (chain_prompt_filled (format_arg question)
                    (format_arg context) "")), l).
Proof. vm_compute. reflexivity. Qed.

(** So does the structured one, with the instructions appended. *)
Lemma invoke_chain_prompt_json question context l :
  invoke
    (PromptTemplate
       (chain_prompt_template ++ newline ++ newline
          ++ "{format_instructions}" ++ newline)
       ["context"; "question"]
       [("format_instructions", get_format_instructions PartySummaries)])
    (VDict [("context", context); ("question", question)]) l
  = (Ok (VPrompt (chain_prompt_filled (format_arg question)
                    (format_arg context) appended_instructions)), l).
Proof. vm_compute. reflexivity. Qed.
End Prompts.

(* ================================================================== *)
(** ** Properties of the builders *)
(* ================================================================== *)




(* ================================================================== *)
(** ** The single-retriever chain *)
(* ================================================================== *)

Section Single_retriever.
Context `{Framework}.
Variables (retriever : VectorStoreRetriever) (llm : option LLM).
Variables (output_parser : string) (temperature : float).

Lemma selected_chain_prompt parser prompt question context l :
  selection output_parser chain_prompt_template = Ok (parser, prompt) ->
  invoke prompt (VDict [("context", context); ("question", question)]) l
  = (Ok (VPrompt (chain_prompt_filled (format_arg question)
                    (format_arg context) (appended_by output_parser))), l).
Proof.
  unfold selection, appended_by.
  destruct (output_parser =? "json").
  - intros [= _ <-]. apply invoke_chain_prompt_json.
  - destruct (output_parser =? "str"); [| discriminate].
    intros [= _ <-]. apply invoke_chain_prompt_str.
Qed.

Lemma selected_parser parser prompt raw l :
  selection output_parser chain_prompt_template = Ok (parser, prompt) ->
  invoke parser (VMessage raw) l = (parsed output_parser raw, l).
Proof.
  unfold selection, parsed.
  destruct (output_parser =? "json").
  - intros [= <- _]. cbn. unfold parse_json, bind. cbn.
    destruct (json_loads raw); reflexivity.
  - destruct (output_parser =? "str"); [| discriminate].
    intros [= <- _]. reflexivity.
Qed.

(** Without [verbose]: one retrieval, one model call, and the reply read
    by the selected parser. *)
Lemma chain_invocation l chain question l0 :
  outcome (generate_chain retriever llm output_parser false temperature) l
  = Ok chain ->
  invoke chain question l0
  = (parsed output_parser (the_llm llm temperature (chain_prompt_for retriever output_parser question)),
     (l0 ++ [Call_retriever question; Call_llm (chain_prompt_for retriever output_parser question)])%list).
Proof.
  unfold outcome. rewrite generate_chain_run. cbn [fst].
  destruct (selection output_parser chain_prompt_template)
    as [[parser prompt] | e] eqn:Sel; [| discriminate].
  intros [= <-]. rewrite invoke_chain. unfold prompting.
  cbn [invoke]. unfold bind, emit.
  rewrite (selected_chain_prompt _ _ _ _ _ Sel). cbn [invoke_llm].
  unfold bind, emit, ret. rewrite (selected_parser _ _ _ _ Sel).
  unfold chain_prompt_for.
  rewrite <- app_assoc. reflexivity.
Qed.

(** With [verbose]: the same calls; the reply is bundled as text,
    whatever parser was selected. *)
Lemma chain_with_source_invocation l chain question l0 :
  outcome (generate_chain retriever llm output_parser true temperature) l
  = Ok chain ->
  invoke chain question l0
  = (Ok (VDict [("context", retriever question); ("question", question);
                ("answer",
                 VStr (the_llm llm temperature (chain_prompt_for retriever output_parser question)))]),
     (l0 ++ [Call_retriever question; Call_llm (chain_prompt_for retriever output_parser question)])%list).
Proof.
  unfold outcome. rewrite generate_chain_run. cbn [fst].
  destruct (selection output_parser chain_prompt_template)
    as [[parser prompt] | e] eqn:Sel; [| discriminate].
  intros [= <-]. rewrite invoke_chain_with_source. unfold prompting.
  cbn [invoke]. unfold bind, emit.
  rewrite (selected_chain_prompt _ _ _ _ _ Sel). cbn.
  unfold chain_prompt_for. rewrite <- app_assoc. reflexivity.
Qed.
End Single_retriever.

(** C5.  Built with [verbose=True], the chain returns for any question a
    mapping whose [question] entry is the input itself and whose [context]
    entry is what the retriever returned for it; the retriever is called
    once, with that question. *)
Theorem verbose_result_carries_question_and_context `{Framework}
    (retriever : VectorStoreRetriever) llm output_parser temperature l chain :
  outcome (generate_chain retriever llm output_parser true temperature) l
  = Ok chain ->
  forall question l0,
  exists d prompt,
    invoke chain question l0
    = (Ok (VDict d), (l0 ++ [Call_retriever question; Call_llm prompt])%list)
    /\ dict_keys d = ["context"; "question"; "answer"]
    /\ dict_get d "question" = Some question
    /\ dict_get d "context" = Some (retriever question).
Proof.
  intros Build question l0. do 2 eexists. split.
  - apply (chain_with_source_invocation _ _ _ _ _ _ _ _ Build).
  - repeat split.
Qed.

Lemma verbose_result_carries_question_and_context_witness :
  exists chain,
    outcome (generate_chain (H := Stubs.framework) Stubs.retriever
               (Some Stubs.echo_llm) "str" true 0%float) [] = Ok chain
    /\ exists d prompt,
         invoke (H := Stubs.framework) chain (VStr "Was sagt die SPD?") []
         = (Ok (VDict d),
            [Call_retriever (VStr "Was sagt die SPD?"); Call_llm prompt])
         /\ dict_keys d = ["context"; "question"; "answer"]
         /\ dict_get d "question" = Some (VStr "Was sagt die SPD?")
         /\ dict_get d "context" = Some (VList [VDocument "Solarenergie" []]).
Proof.
  eexists. split; [vm_compute; reflexivity |].
  apply (verbose_result_carries_question_and_context (H := Stubs.framework)
           Stubs.retriever (Some Stubs.echo_llm) "str" 0%float []).
  vm_compute. reflexivity.
Defined.

(** C6.  Built with [verbose=False] and [output_parser="str"], the chain
    returns for a question Q the model's reply to the prompt template
    filled with Q and with the retriever's context, as plain text. *)
Theorem plain_chain_returns_raw_model_output `{Framework}
    (retriever : VectorStoreRetriever) llm temperature l chain :
  outcome (generate_chain retriever llm "str" false temperature) l = Ok chain ->
  forall Q l0,
    let context := retriever (VStr Q) in
    let prompt := chain_prompt_filled Q (format_arg context) "" in
    format_template chain_prompt_template
      [("context", context); ("question", VStr Q)] = Ok prompt
    /\ invoke chain (VStr Q) l0
       = (Ok (VStr (the_llm llm temperature prompt)),
          (l0 ++ [Call_retriever (VStr Q); Call_llm prompt])%list).
Proof.
  intros Build Q l0 context prompt. split.
  - vm_compute. reflexivity.
  - pose proof (chain_invocation _ _ _ _ _ _ (VStr Q) l0 Build) as E.
    rewrite E. reflexivity.
Qed.

Lemma plain_chain_returns_raw_model_output_witness :
  exists chain,
    outcome (generate_chain (H := Stubs.framework) Stubs.retriever
               (Some Stubs.json_llm) "str" false 0%float) [] = Ok chain
    /\ outcome (invoke (H := Stubs.framework) chain (VStr "Q")) []
       = Ok (VStr Stubs.summaries_text).
Proof.
  eexists. split; [vm_compute; reflexivity |].
  match goal with
  | |- outcome (invoke ?chain _) _ = _ =>
      pose proof (plain_chain_returns_raw_model_output (H := Stubs.framework)
                    Stubs.retriever (Some Stubs.json_llm) 0%float [] chain) as W
  end.
  specialize (W ltac:(vm_compute; reflexivity) "Q" []).
  destruct W as [_ W]. unfold outcome. rewrite W. reflexivity.
Defined.

(* ================================================================== *)
(** ** The balanced-retrieval chain *)
(* ================================================================== *)

(** What an invocation of the balanced chain does: query every database,
    hand question, joined context (and documents) to the prompting stage,
    and bundle its answer. *)
Lemma full_chain_invocation `{Framework}
    dbs llm output_parser temperature k return_context language l chain :
  outcome (generate_chain_with_balanced_retrieval
             dbs llm output_parser temperature k return_context language) l
  = Ok chain ->
  exists parser prompt,
    selection output_parser (balanced_prompt_template language)
    = Ok (parser, prompt)
    /\ forall question l0,
         invoke chain question l0
         = (emit_all (retrieval_calls return_context dbs question k) ;;;
            answer <- invoke (prompting prompt (the_llm llm temperature) parser)
                        (VDict (retrieved return_context dbs question k)) ;;
            ret (VDict
                   ((if return_context
                     then retrieved return_context dbs question k
                     else [("question", question)])
                    ++ [("answer", answer)])%list)) l0.
Proof.
  unfold outcome. rewrite generate_chain_with_balanced_retrieval_run. cbn [fst].
  destruct (selection output_parser (balanced_prompt_template language))
    as [[parser prompt] | e]; [| discriminate].
  intros [= <-]. exists parser, prompt. split; [reflexivity |].
  intros question l0. destruct return_context.
  - apply invoke_full_chain_with_context.
  - apply invoke_full_chain_without_context.
Qed.

(** C2.  Invoking the balanced chain calls [build_context(question, k)]
    on every database, once each and in list order, and the prompting
    stage receives as [context] the returned texts joined by a blank line
    in that order; three databases returning "A", "B" and "C" give the
    context "A\n\nB\n\nC". *)
Theorem balanced_context_joins_every_database `{Framework}
    dbs llm output_parser temperature k return_context language l chain :
  outcome (generate_chain_with_balanced_retrieval
             dbs llm output_parser temperature k return_context language) l
  = Ok chain ->
  (exists parser prompt,
     selection output_parser (balanced_prompt_template language)
     = Ok (parser, prompt)
     /\ forall question l0,
          invoke chain question l0
          = (emit_all (retrieval_calls return_context dbs question k) ;;;
             answer <- invoke (prompting prompt (the_llm llm temperature) parser)
                         (VDict (retrieved return_context dbs question k)) ;;
             ret (VDict
                    ((if return_context
                      then retrieved return_context dbs question k
                      else [("question", question)])
                     ++ [("answer", answer)])%list)) l0)
  /\
  (forall question,
     dict_get (retrieved return_context dbs question k) "context"
     = Some (VStr (join (newline ++ newline)
                     (map (fun db => build_context db question k) dbs)))
     /\ filter (fun ev => match ev with
                          | Call_build_context _ _ _ => true
                          | _ => false
                          end)
          (retrieval_calls return_context dbs question k)
        = map (fun i => Call_build_context i question k) (seq 0 (length dbs)))
  /\
  (forall a b c question l0,
     build_context a question k = "A" ->
     build_context b question k = "B" ->
     build_context c question k = "C" ->
     joined_context [a; b; c] k (VDict [("question", question)]) l0
     = (Ok (VStr ("A" ++ newline ++ newline ++ "B" ++ newline ++ newline ++ "C")),
        (l0 ++ [Call_build_context 0 question k;
                Call_build_context 1 question k;
                Call_build_context 2 question k])%list)).
Proof.
  intros Build. split; [| split].
  - apply (full_chain_invocation _ _ _ _ _ _ _ _ _ Build).
  - intros question. split; [reflexivity |].
    unfold retrieval_calls, build_context_calls, get_documents_calls.
    rewrite filter_app.
    assert (Keep : forall from n,
      filter (fun ev => match ev with
                        | Call_build_context _ _ _ => true
                        | _ => false
                        end)
        (map (fun i => Call_build_context i question k) (seq from n))
      = map (fun i => Call_build_context i question k) (seq from n)).
    { intros from n. revert from.
      induction n as [| n IH]; intros from; simpl; [| rewrite IH]; reflexivity. }
    assert (Drop : forall from n,
      filter (fun ev => match ev with
                        | Call_build_context _ _ _ => true
                        | _ => false
                        end)
        (map (fun i => Call_get_documents_for_each_party i question k)
           (seq from n)) = []).
    { intros from n. revert from.
      induction n as [| n IH]; intros from; simpl; [| rewrite IH]; reflexivity. }
    rewrite Keep. destruct return_context; [rewrite Drop |]; apply app_nil_r.
  - intros a b c question l0 Ha Hb Hc.
    rewrite joined_context_run. unfold joined, contexts. simpl.
    rewrite Ha, Hb, Hc. reflexivity.
Qed.

Lemma balanced_context_joins_every_database_witness :
  joined_context
    [Stubs.database "debates" "A"; Stubs.database "manifestos" "B";
     Stubs.database "speeches" "C"] 5 (VDict [("question", VStr "Q")]) []
  = (Ok (VStr ("A" ++ newline ++ newline ++ "B" ++ newline ++ newline ++ "C")),
     [Call_build_context 0 (VStr "Q") 5; Call_build_context 1 (VStr "Q") 5;
      Call_build_context 2 (VStr "Q") 5]).
Proof.
  eassert (Build :
    outcome (generate_chain_with_balanced_retrieval (H := Stubs.framework)
               [Stubs.database "debates" "A"; Stubs.database "manifestos" "B";
                Stubs.database "speeches" "C"]
               (Some Stubs.echo_llm) "str" 0%float 5 true "Deutsch") []
    = Ok _) by (vm_compute; reflexivity).
  pose proof (balanced_context_joins_every_database _ _ _ _ _ _ _ _ _ Build)
    as [_ [_ ABC]].
  apply (ABC _ _ _ (VStr "Q") []); reflexivity.
Defined.




(* ================================================================== *)
(** ** Dictionaries *)
(* ================================================================== *)

Section Dict_facts.
Context {V : Type}.
Implicit Types (d items : list (string * V)) (key : string) (v : V).

Lemma dict_keys_set d key v :
  dict_keys (dict_set d key v)
  = if in_dec string_dec key (dict_keys d)
    then dict_keys d
    else (dict_keys d ++ [key])%list.
Proof.
  induction d as [| [k w] d IH]; simpl; [reflexivity |].
  destruct (String.eqb_spec k key) as [-> | Hne].
  - destruct (string_dec key key); [| contradiction]. reflexivity.
  - destruct (string_dec k key); [contradiction |]. simpl. rewrite IH.
    destruct (in_dec string_dec key (dict_keys d)); reflexivity.
Qed.

Lemma in_dict_keys_set d key v s :
  In s (dict_keys (dict_set d key v)) <-> In s (dict_keys d) \/ s = key.
Proof.
  rewrite dict_keys_set.
  destruct (in_dec string_dec key (dict_keys d)) as [Hin | Hn].
  - split; [auto |]. intros [Hs | ->]; assumption.
  - rewrite in_app_iff. simpl. intuition.
Qed.

Lemma NoDup_dict_keys_set d key v :
  NoDup (dict_keys d) -> NoDup (dict_keys (dict_set d key v)).
Proof.
  intros Hd. rewrite dict_keys_set.
  destruct (in_dec string_dec key (dict_keys d)) as [Hin | Hn]; [exact Hd |].
  apply NoDup_app; [exact Hd | repeat constructor; intros [] |].
  intros s Hs [<- | []]. contradiction.
Qed.

(** After [{**d, **items}] the keys are those of both. *)
Lemma in_dict_keys_update items : forall d s,
  In s (dict_keys (dict_update d items))
  <-> In s (dict_keys d) \/ In s (map fst items).
Proof.
  unfold dict_update.
  induction items as [| [k v] items IH]; intros d s; simpl.
  - intuition.
  - rewrite IH, in_dict_keys_set. simpl. intuition.
Qed.

Lemma NoDup_dict_keys_update items : forall d,
  NoDup (dict_keys d) -> NoDup (dict_keys (dict_update d items)).
Proof.
  unfold dict_update.
  induction items as [| [k v] items IH]; intros d Hd; simpl; [exact Hd |].
  apply IH, NoDup_dict_keys_set, Hd.
Qed.

End Dict_facts.

Section Dict_overwrite.
Context {V : Type}.
Implicit Types (d items : list (string * V)) (key : string) (v : V).

Lemma dict_get_set d key v key' :
  dict_get (dict_set d key v) key'
  = if String.eqb key key' then Some v else dict_get d key'.
Proof.
  induction d as [| [k w] d IH]; simpl.
  - reflexivity.
  - destruct (String.eqb_spec k key) as [-> | Hne]; simpl.
    + destruct (String.eqb key key'); reflexivity.
    + rewrite IH. destruct (String.eqb_spec k key') as [-> | _];
        [| reflexivity].
      destruct (String.eqb_spec key key') as [-> | _];
        [contradiction | reflexivity].
Qed.

Lemma dict_update_app d items items' :
  dict_update d (items ++ items')%list
  = dict_update (dict_update d items) items'.
Proof. unfold dict_update. apply fold_left_app. Qed.

(** Entries under other keys leave a key as it is. *)
Lemma dict_get_update_other items : forall d key,
  ~ In key (map fst items) ->
  dict_get (dict_update d items) key = dict_get d key.
Proof.
  unfold dict_update.
  induction items as [| [k v] items IH]; intros d key Hn; simpl;
    [reflexivity |].
  rewrite IH by (intros Hin; apply Hn; right; exact Hin).
  rewrite dict_get_set.
  destruct (String.eqb_spec k key) as [-> | _]; [| reflexivity].
  exfalso. apply Hn. left. reflexivity.
Qed.

(** The last entry written under a key is the one kept. *)
Lemma dict_get_update_last d before key v after :
  ~ In key (map fst after) ->
  dict_get (dict_update d (before ++ (key, v) :: after)%list) key = Some v.
Proof.
  intros Hn. rewrite dict_update_app.
  change ((key, v) :: after) with ([(key, v)] ++ after)%list.
  rewrite dict_update_app, dict_get_update_other by exact Hn.
  unfold dict_update. simpl. rewrite dict_get_set, String.eqb_refl.
  reflexivity.
Qed.
End Dict_overwrite.

(* ================================================================== *)
(** ** The documents of the balanced chain *)
(* ================================================================== *)

Lemma documents_keys dbs question k :
  map fst (documents dbs question k) = map source_type dbs.
Proof. unfold documents. rewrite map_map. reflexivity. Qed.

(** The [docs] entry of a result of the chain built to return context. *)
Lemma docs_of_result `{Framework}
    dbs llm output_parser temperature k language l chain question l0 out :
  outcome (generate_chain_with_balanced_retrieval
             dbs llm output_parser temperature k true language) l
  = Ok chain ->
  outcome (invoke chain question) l0 = Ok out ->
  docs_of out = Some (VDict (dict_of_items (documents dbs question k))).
Proof.
  intros Build.
  destruct (full_chain_invocation _ _ _ _ _ _ _ _ _ Build)
    as (parser & prompt & _ & Inv).
  unfold outcome. rewrite Inv. unfold bind, emit_all.
  destruct (invoke (prompting _ _ _) _ _) as [[answer | e] l1];
    [| discriminate].
  intros [= <-]. reflexivity.
Qed.

(** Build a pipeline symbolically, keeping its shape. *)
Ltac built :=
  unfold outcome;
  rewrite ?generate_chain_run, ?generate_chain_with_balanced_retrieval_run;
  lazymatch goal with
  | |- context [selection "json" chain_prompt_template] =>
      rewrite selection_chain_json
  | |- context [selection "str" chain_prompt_template] =>
      rewrite selection_chain_str
  | |- context [selection "json" (balanced_prompt_template _)] =>
      rewrite selection_balanced_plain_json by reflexivity
  | |- context [selection "str" (balanced_prompt_template _)] =>
      rewrite selection_balanced_plain_str by reflexivity
  end;
  reflexivity.

(** C4, as stated, fails: two databases of one source type share a single
    [docs] entry, which holds the documents of the later one. *)
Lemma docs_mapping_collapses_shared_source_type :
  ~ docs_mapping_claim (H := Stubs.framework)
      [Stubs.database "manifesto" "A"; Stubs.database "manifesto" "B"]
      (Some Stubs.echo_llm) "str" 0%float 5 "Deutsch".
Proof.
  intros Claim.
  eassert (Build :
    outcome (generate_chain_with_balanced_retrieval (H := Stubs.framework)
               [Stubs.database "manifesto" "A"; Stubs.database "manifesto" "B"]
               (Some Stubs.echo_llm) "str" 0%float 5 true "Deutsch") []
    = Ok _) by built.
  match type of Build with
  | _ = Ok ?chain =>
      eassert (Run : outcome (invoke (H := Stubs.framework) chain (VStr "Q")) []
                     = Ok _) by (vm_compute; reflexivity)
  end.
  destruct (Claim [] _ Build (VStr "Q") [] _ Run) as (docs & Docs & _ & Get).
  specialize (Get (Stubs.database "manifesto" "A") (or_introl eq_refl)).
  vm_compute in Docs. injection Docs as <-.
  vm_compute in Get. discriminate Get.
Qed.

(** C4, amended.  With [return_context=True] every result carries a
    [docs] mapping whose keys are exactly the databases' source types, one
    entry for each, and whose value under a source type is the
    [get_documents_for_each_party(question, k)] of the last database in
    the list that has that source type. *)
Theorem docs_keyed_by_source_type `{Framework}
    dbs llm output_parser temperature k language l chain question l0 out :
  outcome (generate_chain_with_balanced_retrieval
             dbs llm output_parser temperature k true language) l
  = Ok chain ->
  outcome (invoke chain question) l0 = Ok out ->
  exists docs,
    docs_of out = Some (VDict docs)
    /\ (forall s, In s (dict_keys docs) <-> In s (map source_type dbs))
    /\ NoDup (dict_keys docs)
    /\ (forall before db after,
          dbs = (before ++ db :: after)%list ->
          (forall other, In other after ->
             source_type other <> source_type db) ->
          dict_get docs (source_type db)
          = Some (get_documents_for_each_party db question k)).
Proof.
  intros Build Run.
  exists (dict_of_items (documents dbs question k)).
  split; [apply (docs_of_result _ _ _ _ _ _ _ _ _ _ _ Build Run) |].
  split; [| split].
  - intros s. unfold dict_of_items. rewrite in_dict_keys_update.
    rewrite documents_keys. simpl. intuition.
  - apply NoDup_dict_keys_update. constructor.
  - intros before db after -> Last.
    unfold dict_of_items, documents. rewrite map_app. cbn [map].
    apply dict_get_update_last. rewrite map_map. cbn [fst].
    intros Hin. apply in_map_iff in Hin. destruct Hin as (other & E & Hin).
    apply (Last other Hin E).
Qed.

Lemma docs_keyed_by_source_type_witness :
  exists docs,
    docs_of
      (VDict [("question", VStr "Q");
              ("context", VStr ("A" ++ newline ++ newline ++ "B"));
              ("docs",
               VDict [("debates", VDict [("cdu", VList [VDocument "A" []])]);
                      ("manifestos", VDict [("cdu", VList [VDocument "B" []])])]);
              ("answer", VStr Stubs.summaries_text)])
    = Some (VDict docs)
    /\ NoDup (dict_keys docs)
    /\ dict_get docs "manifestos"
       = Some (VDict [("cdu", VList [VDocument "B" []])]).
Proof.
  eassert (Build :
    outcome (generate_chain_with_balanced_retrieval (H := Stubs.framework)
               [Stubs.database "debates" "A"; Stubs.database "manifestos" "B"]
               (Some Stubs.json_llm) "str" 0%float 5 true "Deutsch") []
    = Ok _) by built.
  match type of Build with
  | _ = Ok ?chain =>
      eassert (Run : outcome (invoke (H := Stubs.framework) chain (VStr "Q")) []
                     = Ok _) by (vm_compute; reflexivity)
  end.
  destruct (docs_keyed_by_source_type _ _ _ _ _ _ _ _ _ _ _ Build Run)
    as (docs & Docs & _ & Distinct & Last).
  exists docs. split; [exact Docs |]. split; [exact Distinct |].
  apply (Last [Stubs.database "debates" "A"] (Stubs.database "manifestos" "B")
           []); [reflexivity |].
  intros other [].
Defined.

(* ================================================================== *)
(** ** Statelessness of the built pipelines *)
(* ================================================================== *)

Lemma oblivious_joined_context dbs k x : oblivious (joined_context dbs k x).
Proof.
  unfold joined_context.
  apply oblivious_bind; [| intros; apply oblivious_ret].
  apply oblivious_for_each. intros i db.
  apply oblivious_bind; [apply oblivious_getitem |]. intros query.
  apply oblivious_bind; [apply oblivious_emit | intros; apply oblivious_ret].
Qed.

Lemma oblivious_docs_by_source dbs k x : oblivious (docs_by_source dbs k x).
Proof.
  unfold docs_by_source.
  apply oblivious_bind; [| intros; apply oblivious_ret].
  apply oblivious_for_each. intros i db.
  apply oblivious_bind; [apply oblivious_getitem |]. intros query.
  apply oblivious_bind; [apply oblivious_emit | intros; apply oblivious_ret].
Qed.

Ltac stateless_steps :=
  repeat first
    [ apply stateless_lambda; intros;
      first [ apply oblivious_getitem | apply oblivious_joined_context
            | apply oblivious_docs_by_source ]
    | assumption
    | apply Forall_cons; cbn [snd]
    | apply Forall_nil
    | constructor ].

Lemma generate_chain_stateless `{Framework}
    retriever llm output_parser verbose temperature l chain :
  outcome (generate_chain retriever llm output_parser verbose temperature) l
  = Ok chain ->
  stateless chain.
Proof.
  unfold outcome. rewrite generate_chain_build. cbn [fst].
  destruct (selection output_parser chain_prompt_template)
    as [[parser prompt] | e] eqn:Sel; [| discriminate].
  destruct (selection_stateless _ _ _ _ Sel) as [Sparser Sprompt].
  destruct retriever as [retriever |]; [| discriminate].
  intros [= <-].
  destruct verbose; unfold assign, RunnablePassthrough_assign; stateless_steps.
Qed.

Lemma generate_chain_with_balanced_retrieval_stateless `{Framework}
    dbs llm output_parser temperature k return_context language l chain :
  outcome (generate_chain_with_balanced_retrieval
             dbs llm output_parser temperature k return_context language) l
  = Ok chain ->
  stateless chain.
Proof.
  unfold outcome. rewrite generate_chain_with_balanced_retrieval_run. cbn [fst].
  destruct (selection output_parser (balanced_prompt_template language))
    as [[parser prompt] | e] eqn:Sel; [| discriminate].
  destruct (selection_stateless _ _ _ _ Sel) as [Sparser Sprompt].
  intros [= <-].
  destruct return_context; unfold assign, question_of; stateless_steps.
Qed.

(** C8.  A pipeline built by either builder, in any configuration, gives
    the same output when invoked a second time with the same question,
    whatever the first invocation left in the call log, and it makes the
    same calls again. *)
Theorem repeated_invocation_same_output `{Framework}
    retriever dbs llm output_parser verbose temperature k return_context
    language l chain :
  outcome (generate_chain retriever llm output_parser verbose temperature) l
  = Ok chain
  \/ outcome (generate_chain_with_balanced_retrieval
                dbs llm output_parser temperature k return_context language) l
     = Ok chain ->
  forall question l0,
    let after_first := calls (invoke chain question) l0 in
    outcome (invoke chain question) after_first
    = outcome (invoke chain question) l0
    /\ calls (invoke chain question) after_first
       = (after_first ++ calls (invoke chain question) [])%list
    /\ after_first = (l0 ++ calls (invoke chain question) [])%list.
Proof.
  intros Build question l0 after_first.
  assert (S : stateless chain).
  { destruct Build as [Build | Build].
    - apply (generate_chain_stateless _ _ _ _ _ _ _ Build).
    - apply (generate_chain_with_balanced_retrieval_stateless
               _ _ _ _ _ _ _ _ _ Build). }
  pose proof (stateless_oblivious chain S question) as Ob.
  split; [| split].
  - rewrite (oblivious_outcome _ after_first Ob), (oblivious_outcome _ l0 Ob).
    reflexivity.
  - apply oblivious_calls, Ob.
  - apply oblivious_calls, Ob.
Qed.

Lemma repeated_invocation_same_output_witness :
  exists chain,
    outcome (generate_chain_with_balanced_retrieval (H := Stubs.framework)
               [Stubs.database "debates" "A"; Stubs.database "manifestos" "B"]
               (Some Stubs.json_llm) "json" 0%float 5 false "Deutsch") []
    = Ok chain
    /\ outcome (invoke (H := Stubs.framework) chain (VStr "Q"))
         (calls (invoke (H := Stubs.framework) chain (VStr "Q")) [])
       = Ok (VDict [("question", VStr "Q"); ("answer", Stubs.summaries)]).
Proof.
  eexists. split; [built |].
  match goal with
  | |- outcome (invoke ?chain _) _ = _ =>
      assert (Build :
        outcome (generate_chain_with_balanced_retrieval (H := Stubs.framework)
                   [Stubs.database "debates" "A";
                    Stubs.database "manifestos" "B"]
                   (Some Stubs.json_llm) "json" 0%float 5 false "Deutsch") []
        = Ok chain) by built
  end.
  pose proof (repeated_invocation_same_output (H := Stubs.framework)
                Stubs.retriever _ _ _ false _ _ _ _ _ _ (or_intror Build)
                (VStr "Q") []) as W.
  cbv zeta in W. destruct W as [Same _]. rewrite Same.
  vm_compute. reflexivity.
Defined.

(** C9.  With a model supplied by the caller, [temperature] has no effect:
    both builders return the same pipeline and construct nothing, so the
    pipelines built for two temperatures agree on every input.  Only the
    default model, constructed when [llm] is [None], takes it. *)
Theorem temperature_unused_with_supplied_llm `{Framework}
    retriever dbs (llm : LLM) output_parser verbose k return_context language
    t1 t2 l :
  generate_chain retriever (Some llm) output_parser verbose t1 l
  = generate_chain retriever (Some llm) output_parser verbose t2 l
  /\ generate_chain_with_balanced_retrieval
       dbs (Some llm) output_parser t1 k return_context language l
     = generate_chain_with_balanced_retrieval
         dbs (Some llm) output_parser t2 k return_context language l
  /\ (forall chain1 chain2,
        outcome (generate_chain retriever (Some llm) output_parser verbose t1) l
        = Ok chain1 ->
        outcome (generate_chain retriever (Some llm) output_parser verbose t2) l
        = Ok chain2 ->
        forall input l0, invoke chain1 input l0 = invoke chain2 input l0)
  /\ (forall chain1 chain2,
        outcome (generate_chain_with_balanced_retrieval
                   dbs (Some llm) output_parser t1 k return_context language) l
        = Ok chain1 ->
        outcome (generate_chain_with_balanced_retrieval
                   dbs (Some llm) output_parser t2 k return_context language) l
        = Ok chain2 ->
        forall input l0, invoke chain1 input l0 = invoke chain2 input l0)
  /\ generate_chain retriever None output_parser verbose t1 l
     = (fst (generate_chain retriever
               (Some (ChatOpenAI "gpt-3.5-turbo" 2000 t1))
               output_parser verbose t2 l),
        (l ++ [Construct_ChatOpenAI "gpt-3.5-turbo" 2000 t1])%list).
Proof.
  assert (E1 :
    generate_chain retriever (Some llm) output_parser verbose t1 l
    = generate_chain retriever (Some llm) output_parser verbose t2 l)
    by (rewrite !generate_chain_build; reflexivity).
  assert (E2 :
    generate_chain_with_balanced_retrieval
      dbs (Some llm) output_parser t1 k return_context language l
    = generate_chain_with_balanced_retrieval
        dbs (Some llm) output_parser t2 k return_context language l)
    by (rewrite !generate_chain_with_balanced_retrieval_run; reflexivity).
  split; [exact E1 |]. split; [exact E2 |]. split; [| split].
  - intros chain1 chain2 B1 B2 input l0. unfold outcome in *.
    rewrite E1 in B1. rewrite B1 in B2. injection B2 as <-. reflexivity.
  - intros chain1 chain2 B1 B2 input l0. unfold outcome in *.
    rewrite E2 in B1. rewrite B1 in B2. injection B2 as <-. reflexivity.
  - rewrite !generate_chain_build. reflexivity.
Qed.

Lemma temperature_unused_with_supplied_llm_witness :
  exists chain1 chain2,
    outcome (generate_chain (H := Stubs.framework) Stubs.retriever
               (Some Stubs.echo_llm) "str" false 0%float) [] = Ok chain1
    /\ outcome (generate_chain (H := Stubs.framework) Stubs.retriever
                  (Some Stubs.echo_llm) "str" false 1%float) [] = Ok chain2
    /\ forall input l0,
         invoke (H := Stubs.framework) chain1 input l0
         = invoke (H := Stubs.framework) chain2 input l0.
Proof.
  do 2 eexists. split; [built |]. split; [built |].
  apply (proj1 (proj2 (proj2
           (temperature_unused_with_supplied_llm (H := Stubs.framework)
              Stubs.retriever [] Stubs.echo_llm "str" false 5 false "Deutsch"
              0%float 1%float [])))); built.
Defined.

(* ================================================================== *)
(** ** Structured output *)
(* ================================================================== *)

(** A payload matching the schema exposes every party key as text. *)
Lemma matches_schema_exposes_fields payload field :
  matches_schema PartySummaries payload = true ->
  In field (map fst PartySummaries) ->
  exists d text,
    payload = VDict d /\ dict_get d field = Some (VStr text).
Proof.
  destruct payload as [| | | d | | |]; try discriminate.
  unfold matches_schema. rewrite forallb_forall. intros All Hin.
  apply in_map_iff in Hin. destruct Hin as (f & <- & Hf).
  specialize (All f Hf).
  destruct (dict_get d (fst f)) as [[| text | | | | |] |] eqn:Get;
    try discriminate.
  exists d, text. split; [reflexivity | exact Get].
Qed.

(** Without [verbose], the structured mode of [generate_chain] returns
    the payload the model emitted, parsed. *)
Lemma structured_chain_returns_payload `{Framework}
    (retriever : VectorStoreRetriever) llm temperature l chain question l0
    payload :
  outcome (generate_chain retriever llm "json" false temperature) l = Ok chain ->
  json_loads (the_llm llm temperature
                (chain_prompt_for retriever "json" question)) = Some payload ->
  outcome (invoke chain question) l0 = Ok payload.
Proof.
  intros Build Loads. unfold outcome.
  rewrite (chain_invocation _ _ _ _ _ _ question l0 Build).
  unfold parsed. simpl. rewrite Loads. reflexivity.
Qed.

(** The balanced chain in structured mode, with or without context:
    whenever it returns, its [answer] is a payload read from the model's
    reply by the JSON reader. *)
Lemma structured_full_chain_answer_parsed `{Framework}
    dbs llm temperature k return_context language l chain question l0 out :
  outcome (generate_chain_with_balanced_retrieval
             dbs llm "json" temperature k return_context language) l
  = Ok chain ->
  outcome (invoke chain question) l0 = Ok out ->
  exists d prompt payload,
    out = VDict d
    /\ json_loads (the_llm llm temperature prompt) = Some payload
    /\ dict_get d "answer" = Some payload.
Proof.
  intros Build.
  destruct (full_chain_invocation _ _ _ _ _ _ _ _ _ Build)
    as (parser & prompt & Sel & Inv).
  destruct (selection_shape _ _ _ _ Sel)
    as [(template & iv & pv & ->) [[_ ->] | [Abs _]]]; [| discriminate Abs].
  unfold outcome. rewrite Inv. unfold prompting, bind, emit_all.
  cbn [invoke]. unfold bind.
  destruct (invoke_prompt _ _ _ _ _) as [[p | e] l1] eqn:P; [| discriminate].
  assert (Shape : exists text, p = VPrompt text).
  { unfold invoke_prompt, bind in P.
    destruct (validate_input _ _ _) as [[kw | e] l2]; [| discriminate].
    destruct (lift _ l2) as [[text | e] l3]; [| discriminate].
    injection P as <- _. exists text. reflexivity. }
  destruct Shape as [text ->]. cbn [invoke_llm]. unfold bind, emit, ret.
  unfold parse_json, bind. cbn [generation_text]. unfold ret.
  destruct (json_loads (the_llm llm temperature text)) as [payload |] eqn:Loads;
    [| discriminate].
  intros [= <-]. eexists. exists text, payload.
  split; [reflexivity |]. split; [exact Loads |].
  destruct return_context; reflexivity.
Qed.

(** C3, at the failing input.  Built with [output_parser="json"] and
    [verbose=True], the chain bundles the model's reply as the text it
    was emitted in, although the JSON reader accepts it and the chain
    without [verbose] returns it parsed. *)
Theorem verbose_json_answer_left_as_text :
  exists chain sibling,
    outcome (generate_chain (H := Stubs.framework) Stubs.retriever
               (Some Stubs.json_llm) "json" true 0%float) [] = Ok chain
    /\ outcome (generate_chain (H := Stubs.framework) Stubs.retriever
                  (Some Stubs.json_llm) "json" false 0%float) [] = Ok sibling
    /\ json_loads (Framework := Stubs.framework) Stubs.summaries_text
       = Some Stubs.summaries
    /\ outcome (invoke (H := Stubs.framework) chain (VStr "Q")) []
       = Ok (VDict [("context", VList [VDocument "Solarenergie" []]);
                    ("question", VStr "Q");
                    ("answer", VStr Stubs.summaries_text)])
    /\ outcome (invoke (H := Stubs.framework) sibling (VStr "Q")) []
       = Ok Stubs.summaries.
Proof.
  do 2 eexists. split; [built |]. split; [built |]. split; [reflexivity |].
  split; vm_compute; reflexivity.
Qed.

(** C7, at the failing input.  The model emits a payload that matches the
    six-field schema, yet the result of the chain built with
    [output_parser="json"] and [verbose=True] exposes no party key:
    indexing its answer by any of them raises. *)
Theorem verbose_json_answer_exposes_no_party_key :
  matches_schema PartySummaries Stubs.summaries = true
  /\ exists chain d answer,
       outcome (generate_chain (H := Stubs.framework) Stubs.retriever
                  (Some Stubs.json_llm) "json" true 0%float) [] = Ok chain
       /\ outcome (invoke (H := Stubs.framework) chain (VStr "Q")) []
          = Ok (VDict d)
       /\ dict_get d "answer" = Some answer
       /\ answer <> Stubs.summaries
       /\ forall field,
            In field ["cdu"; "spd"; "gruene"; "linke"; "fdp"; "afd"] ->
            outcome (getitem answer field) [] = Raise TypeError.
Proof.
  split; [reflexivity |].
  do 3 eexists. split; [built |].
  split; [vm_compute; reflexivity |].
  split; [reflexivity |]. split; [discriminate |].
  intros field _. reflexivity.
Qed.

(* ================================================================== *)
(** ** Further properties of the single-retriever chain *)
(* ================================================================== *)

(** X1.  For the same arguments, the chain built with [verbose=True]
    bundles as [answer] the very text that the chain built without it
    hands to the selected parser, and both make the same calls: in "str"
    mode the plain chain returns that text, in "json" mode its JSON
    reading. *)
Theorem verbose_answer_is_the_text_the_plain_chain_parses `{Framework}
    (retriever : VectorStoreRetriever) llm output_parser temperature
    l chain lv verbose_chain :
  outcome (generate_chain retriever llm output_parser false temperature) l
  = Ok chain ->
  outcome (generate_chain retriever llm output_parser true temperature) lv
  = Ok verbose_chain ->
  forall question l0,
  exists raw,
    outcome (invoke verbose_chain question) l0
    = Ok (VDict [("context", retriever question); ("question", question);
                 ("answer", VStr raw)])
    /\ (output_parser = "str" ->
        outcome (invoke chain question) l0 = Ok (VStr raw))
    /\ (output_parser = "json" ->
        outcome (invoke chain question) l0
        = match json_loads raw with
          | Some payload => Ok payload
          | None => Raise OutputParserException
          end)
    /\ calls (invoke verbose_chain question) l0
       = calls (invoke chain question) l0.
Proof.
  intros Build BuildV question l0.
  pose proof (chain_invocation _ _ _ _ _ _ question l0 Build) as Plain.
  pose proof (chain_with_source_invocation _ _ _ _ _ _ question l0 BuildV)
    as Verbose.
  exists (the_llm llm temperature
            (chain_prompt_for retriever output_parser question)).
  unfold outcome, calls. rewrite Plain, Verbose. cbn [fst snd].
  split; [reflexivity |]. split; [| split].
  - intros ->. reflexivity.
  - intros ->. reflexivity.
  - reflexivity.
Qed.

Lemma verbose_answer_is_the_text_the_plain_chain_parses_witness :
  exists chain verbose_chain raw,
    outcome (generate_chain (H := Stubs.framework) Stubs.retriever
               (Some Stubs.json_llm) "json" false 0%float) [] = Ok chain
    /\ outcome (generate_chain (H := Stubs.framework) Stubs.retriever
                  (Some Stubs.json_llm) "json" true 0%float) [] = Ok verbose_chain
    /\ outcome (invoke (H := Stubs.framework) verbose_chain (VStr "Q")) []
       = Ok (VDict [("context", Stubs.retriever (VStr "Q"));
                    ("question", VStr "Q"); ("answer", VStr raw)])
    /\ outcome (invoke (H := Stubs.framework) chain (VStr "Q")) []
       = match json_loads (Framework := Stubs.framework) raw with
         | Some payload => Ok payload
         | None => Raise OutputParserException
         end.
Proof.
  do 2 eexists.
  match goal with
  | |- exists raw, outcome ?b [] = Ok ?c /\ outcome ?bv [] = Ok ?cv /\ _ =>
      assert (Build : outcome b [] = Ok c) by built;
      assert (BuildV : outcome bv [] = Ok cv) by built
  end.
  destruct (verbose_answer_is_the_text_the_plain_chain_parses
              (H := Stubs.framework) _ _ _ _ _ _ _ _ Build BuildV (VStr "Q") [])
    as (raw & Verbose & _ & Json & _).
  exists raw. split; [exact Build |]. split; [exact BuildV |].
  split; [exact Verbose |]. apply Json. reflexivity.
Defined.

(** X2.  Without [verbose] and in "json" mode, a reply the JSON reader
    rejects makes the invocation raise the parser's exception, after the
    one retrieval and the one model call have been made: nothing is
    retried and nothing is returned. *)
Theorem rejected_reply_raises_after_one_model_call `{Framework}
    (retriever : VectorStoreRetriever) llm temperature l chain question l0 :
  outcome (generate_chain retriever llm "json" false temperature) l
  = Ok chain ->
  json_loads (the_llm llm temperature
                (chain_prompt_for retriever "json" question)) = None ->
  invoke chain question l0
  = (Raise OutputParserException,
     (l0 ++ [Call_retriever question;
             Call_llm (chain_prompt_for retriever "json" question)])%list).
Proof.
  intros Build Rejected.
  rewrite (chain_invocation _ _ _ _ _ _ question l0 Build).
  unfold parsed. cbn [String.eqb Ascii.eqb Bool.eqb]. rewrite Rejected.
  reflexivity.
Qed.

Lemma rejected_reply_raises_after_one_model_call_witness :
  exists chain prompt,
    outcome (generate_chain (H := Stubs.framework) Stubs.retriever
               (Some Stubs.echo_llm) "json" false 0%float) [] = Ok chain
    /\ invoke (H := Stubs.framework) chain (VStr "Q") []
       = (Raise OutputParserException,
          [Call_retriever (VStr "Q"); Call_llm prompt]).
Proof.
  do 2 eexists.
  match goal with
  | |- outcome ?b [] = Ok ?c /\ _ =>
      assert (Build : outcome b [] = Ok c) by built
  end.
  split; [exact Build |].
  apply (rejected_reply_raises_after_one_model_call (H := Stubs.framework)
           _ _ _ _ _ (VStr "Q") [] Build).
  vm_compute. reflexivity.
Defined.

Lemma dict_set_same {V} (d : list (string * V)) key v :
  dict_get d key = Some v -> dict_set d key v = d.
Proof.
  induction d as [| [k w] d IH]; simpl; [discriminate |].
  destruct (String.eqb_spec k key) as [-> | _].
  - intros [= ->]. reflexivity.
  - intros Get. rewrite (IH Get). reflexivity.
Qed.

(** X3.  The first step of [rag_chain_from_docs], which assigns
    [x["context"]] to [context], returns a mapping that has a context
    entry as it is, and raises [KeyError] on a mapping without one; it
    makes no call. *)
Theorem context_reassignment_changes_nothing `{Framework} d l :
  (forall context,
     dict_get d "context" = Some context ->
     invoke
       (RunnablePassthrough_assign
          [("context", RunnableLambda (fun x => getitem x "context"))])
       (VDict d) l
     = (Ok (VDict d), l))
  /\ (dict_get d "context" = None ->
      invoke
        (RunnablePassthrough_assign
           [("context", RunnableLambda (fun x => getitem x "context"))])
        (VDict d) l
      = (Raise (KeyError "context"), l)).
Proof.
  split.
  - intros context Get. unfold RunnablePassthrough_assign.
    cbn [invoke getitem]. unfold bind. rewrite Get. cbn.
    unfold dict_update. cbn [fold_left fst snd].
    rewrite (dict_set_same d "context" context Get). reflexivity.
  - intros Get. unfold RunnablePassthrough_assign.
    cbn [invoke getitem]. unfold bind. rewrite Get. reflexivity.
Qed.

Lemma context_reassignment_changes_nothing_witness :
  invoke (H := Stubs.framework)
    (RunnablePassthrough_assign
       [("context", RunnableLambda (fun x => getitem x "context"))])
    (VDict [("context", VStr "C"); ("question", VStr "Q")]) []
  = (Ok (VDict [("context", VStr "C"); ("question", VStr "Q")]), [])
  /\ invoke (H := Stubs.framework)
       (RunnablePassthrough_assign
          [("context", RunnableLambda (fun x => getitem x "context"))])
       (VDict [("question", VStr "Q")]) []
     = (Raise (KeyError "context"), []).
Proof.
  split.
  - apply (proj1 (context_reassignment_changes_nothing (H := Stubs.framework)
                    [("context", VStr "C"); ("question", VStr "Q")] [])
             (VStr "C")).
    reflexivity.
  - apply (proj2 (context_reassignment_changes_nothing (H := Stubs.framework)
                    [("question", VStr "Q")] [])).
    reflexivity.
Defined.

Lemma join_snoc sep xs x :
  join sep (xs ++ [x])%list
  = match xs with
    | [] => x
    | _ => join sep xs ++ sep ++ x
    end.
Proof.
  induction xs as [| y xs IH]; [reflexivity |].
  change ((y :: xs) ++ [x])%list with (y :: (xs ++ [x]))%list.
  destruct xs as [| z xs]; [reflexivity |].
  change (join sep (y :: ((z :: xs) ++ [x])%list))
    with (y ++ sep ++ join sep ((z :: xs) ++ [x])%list).
  rewrite IH.
  change (join sep (y :: z :: xs)) with (y ++ sep ++ join sep (z :: xs)).
  rewrite !string_app_assoc. reflexivity.
Qed.

(** What a parser mode appends comes after the whole filled prompt. *)
Lemma chain_prompt_filled_appended question context appended :
  chain_prompt_filled question context appended
  = chain_prompt_filled question context "" ++ appended.
Proof.
  unfold chain_prompt_filled, lines.
  repeat match goal with
  | |- context [join newline [?a; ?b; ?c; ?d; ?e; ?f; ?g; ?h; ?i; ?j; ?z]] =>
      change [a; b; c; d; e; f; g; h; i; j; z]
        with ([a; b; c; d; e; f; g; h; i; j] ++ [z])%list
  end.
  rewrite !join_snoc. rewrite !string_app_assoc. reflexivity.
Qed.

(** X4.  In "json" mode the model of [generate_chain] receives the prompt
    of "str" mode followed by a blank line, the format instructions of
    the schema as the framework words them, and a newline; question,
    context and instructions are copied in as they are, whatever
    characters they hold, so the prompt always forms. *)
Theorem structured_prompt_appends_format_instructions `{Framework}
    (retriever : VectorStoreRetriever) llm temperature verbose_str verbose_json
    l chain_str lj chain_json :
  outcome (generate_chain retriever llm "str" verbose_str temperature) l
  = Ok chain_str ->
  outcome (generate_chain retriever llm "json" verbose_json temperature) lj
  = Ok chain_json ->
  forall question l0,
  exists prompt,
    prompt = chain_prompt_filled (format_arg question)
               (format_arg (retriever question)) ""
    /\ calls (invoke chain_str question) l0
       = (l0 ++ [Call_retriever question; Call_llm prompt])%list
    /\ calls (invoke chain_json question) l0
       = (l0 ++ [Call_retriever question;
                 Call_llm (prompt ++ newline ++ newline
                             ++ get_format_instructions PartySummaries
                             ++ newline)])%list.
Proof.
  intros BuildS BuildJ question l0. eexists. split; [reflexivity |].
  assert (Json :
    chain_prompt_for retriever "json" question
    = chain_prompt_filled (format_arg question)
        (format_arg (retriever question)) ""
      ++ newline ++ newline ++ get_format_instructions PartySummaries
      ++ newline).
  { unfold chain_prompt_for. rewrite chain_prompt_filled_appended.
    reflexivity. }
  unfold calls. split.
  - destruct verbose_str.
    + rewrite (chain_with_source_invocation _ _ _ _ _ _ question l0 BuildS).
      reflexivity.
    + rewrite (chain_invocation _ _ _ _ _ _ question l0 BuildS). reflexivity.
  - destruct verbose_json.
    + rewrite (chain_with_source_invocation _ _ _ _ _ _ question l0 BuildJ).
      cbn [snd]. rewrite Json. reflexivity.
    + rewrite (chain_invocation _ _ _ _ _ _ question l0 BuildJ).
      cbn [snd]. rewrite Json. reflexivity.
Qed.

Lemma structured_prompt_appends_format_instructions_witness :
  exists chain_str chain_json prompt,
    outcome (generate_chain (H := Stubs.framework) Stubs.retriever
               (Some Stubs.echo_llm) "str" false 0%float) [] = Ok chain_str
    /\ outcome (generate_chain (H := Stubs.framework) Stubs.retriever
                  (Some Stubs.echo_llm) "json" true 0%float) [] = Ok chain_json
    /\ calls (invoke (H := Stubs.framework) chain_str (VStr "{Q}")) []
       = [Call_retriever (VStr "{Q}"); Call_llm prompt]
    /\ calls (invoke (H := Stubs.framework) chain_json (VStr "{Q}")) []
       = [Call_retriever (VStr "{Q}");
          Call_llm (prompt ++ newline ++ newline
                      ++ "Keys: cdu, spd, gruene, linke, fdp, afd" ++ newline)].
Proof.
  do 2 eexists.
  match goal with
  | |- exists p, outcome ?b [] = Ok ?c /\ outcome ?bj [] = Ok ?cj /\ _ =>
      assert (BuildS : outcome b [] = Ok c) by built;
      assert (BuildJ : outcome bj [] = Ok cj) by built
  end.
  destruct (structured_prompt_appends_format_instructions
              (H := Stubs.framework) _ _ _ _ _ _ _ _ _ BuildS BuildJ
              (VStr "{Q}") [])
    as (prompt & _ & Str & Json).
  exists prompt. split; [exact BuildS |]. split; [exact BuildJ |].
  split; [exact Str | exact Json].
Defined.

(* ================================================================== *)
(** ** Further properties of the balanced-retrieval chain *)
(* ================================================================== *)

(** Filling a prompt makes no call, and yields a prompt value. *)
Lemma invoke_prompt_silent `{Framework} template iv pv input l :
  (exists e, invoke_prompt template iv pv input l = (Raise e, l))
  \/ (exists text, invoke_prompt template iv pv input l = (Ok (VPrompt text), l)).
Proof.
  unfold invoke_prompt, bind.
  assert (Check : forall d,
    (exists e, check_input_variables iv d l = (Raise e, l))
    \/ check_input_variables iv d l = (Ok d, l)).
  { intros d. unfold check_input_variables.
    destruct (missing_variables iv d);
      [right; reflexivity | left; eexists; reflexivity]. }
  assert (Valid :
    (exists e, validate_input iv input l = (Raise e, l))
    \/ (exists d, validate_input iv input l = (Ok d, l))).
  { unfold validate_input.
    destruct input as [| s | items | entries | content metadata | text | content].
    4: { destruct (Check entries) as [[e E] | E]; rewrite E;
         [left | right]; eexists; reflexivity. }
    all: destruct iv as [| var [| ? ?]]; try (left; eexists; reflexivity);
      match goal with
      | |- context [check_input_variables _ ?d _] =>
          destruct (Check d) as [[e E] | E]; rewrite E;
          [left | right]; eexists; reflexivity
      end. }
  destruct Valid as [[e E] | [d E]]; rewrite E.
  - left. exists e. reflexivity.
  - destruct (format_template _ _) as [text | e]; cbn.
    + right. exists text. reflexivity.
    + left. exists e. reflexivity.
Qed.

(** The prompting stage either fails to fill the prompt, without calling
    the model, or calls the model once and reads its reply. *)
Lemma prompting_run `{Framework} output_parser prompt_template parser prompt
    (llm : LLM) input l :
  selection output_parser prompt_template = Ok (parser, prompt) ->
  (exists e,
     invoke prompt input l = (Raise e, l)
     /\ invoke (prompting prompt llm parser) input l = (Raise e, l))
  \/ (exists text,
        invoke prompt input l = (Ok (VPrompt text), l)
        /\ invoke (prompting prompt llm parser) input l
           = (parsed output_parser (llm text), (l ++ [Call_llm text])%list)).
Proof.
  intros Sel. unfold parsed, prompting.
  destruct (selection_shape _ _ _ _ Sel)
    as [(template & iv & pv & ->) [[-> ->] | [-> ->]]];
    cbn [invoke]; unfold bind;
    destruct (invoke_prompt_silent template iv pv input l)
      as [[e E] | [text E]]; rewrite E.
  - left. exists e. split; reflexivity.
  - right. exists text. split; [reflexivity |]. cbn.
    destruct (json_loads (llm text)); reflexivity.
  - left. exists e. split; reflexivity.
  - right. exists text. split; reflexivity.
Qed.





(** A dictionary over a list of keys has one entry per distinct key. *)
Lemma dict_of_items_length {V} (items : list (string * V)) :
  length (dict_of_items items) = length (nodup string_dec (map fst items)).
Proof.
  assert (Keys : forall s,
    In s (dict_keys (dict_of_items items)) <-> In s (map fst items)).
  { intros s. unfold dict_of_items. rewrite in_dict_keys_update.
    simpl. intuition. }
  assert (Distinct : NoDup (dict_keys (dict_of_items items))).
  { apply NoDup_dict_keys_update. constructor. }
  rewrite <- (length_map fst (dict_of_items items)).
  fold (dict_keys (dict_of_items items)).
  apply Nat.le_antisymm; apply NoDup_incl_length.
  - exact Distinct.
  - intros s Hs. apply nodup_In, Keys, Hs.
  - apply NoDup_nodup.
  - intros s Hs. apply Keys. apply nodup_In in Hs. exact Hs.
Qed.

(** X6.  Among databases that share a source type, the [docs] mapping
    keeps the documents of the last one in the list, and it has one entry
    per distinct source type. *)
Theorem docs_keep_last_database_of_a_source_type `{Framework}
    before db after llm output_parser temperature k language l chain
    question l0 out :
  (forall other, In other after -> source_type other <> source_type db) ->
  outcome (generate_chain_with_balanced_retrieval
             (before ++ db :: after) llm output_parser temperature k true
             language) l
  = Ok chain ->
  outcome (invoke chain question) l0 = Ok out ->
  exists docs,
    docs_of out = Some (VDict docs)
    /\ dict_get docs (source_type db)
       = Some (get_documents_for_each_party db question k)
    /\ length docs
       = length (nodup string_dec
                   (map source_type (before ++ db :: after)%list)).
Proof.
  intros Last Build Run.
  eexists. split; [apply (docs_of_result _ _ _ _ _ _ _ _ _ _ _ Build Run) |].
  split.
  - unfold dict_of_items, documents. rewrite map_app. cbn [map].
    apply dict_get_update_last. rewrite map_map. cbn [fst].
    intros Hin. apply in_map_iff in Hin. destruct Hin as (other & E & Hin).
    apply (Last other Hin E).
  - rewrite dict_of_items_length, documents_keys. reflexivity.
Qed.

Lemma docs_keep_last_database_of_a_source_type_witness :
  exists chain out docs,
    outcome (generate_chain_with_balanced_retrieval (H := Stubs.framework)
               [Stubs.database "manifesto" "A"; Stubs.database "debates" "B";
                Stubs.database "manifesto" "C"]
               (Some Stubs.echo_llm) "str" 0%float 5 true "Deutsch") []
    = Ok chain
    /\ outcome (invoke (H := Stubs.framework) chain (VStr "Q")) [] = Ok out
    /\ docs_of out = Some (VDict docs)
    /\ dict_get docs "manifesto" = Some (VDict [("cdu", VList [VDocument "C" []])])
    /\ length docs = 2.
Proof.
  do 2 eexists.
  match goal with
  | |- exists d, outcome ?b [] = Ok ?c /\ _ =>
      assert (Build : outcome b [] = Ok c) by built
  end.
  match type of Build with
  | _ = Ok ?chain =>
      eassert (Run : outcome (invoke (H := Stubs.framework) chain (VStr "Q")) []
                     = Ok _) by (vm_compute; reflexivity)
  end.
  destruct (docs_keep_last_database_of_a_source_type (H := Stubs.framework)
              [Stubs.database "manifesto" "A"; Stubs.database "debates" "B"]
              (Stubs.database "manifesto" "C") []
              _ _ _ _ _ _ _ _ _ _ (fun other (Hin : In other []) => match Hin with end)
              Build Run)
    as (docs & Docs & Get & Len).
  exists docs. split; [exact Build |]. split; [exact Run |].
  split; [exact Docs |]. split; [exact Get | exact Len].
Defined.

(** Brace-free text is copied through by the formatter. *)
Lemma vformat_literal_app `{Framework} s rest kwargs :
  brace_free s = true ->
  vformat Literal (s ++ rest) kwargs = splice s (vformat Literal rest kwargs).
Proof.
  induction s as [| c s IH]; intros Free.
  - simpl. destruct (vformat Literal rest kwargs); reflexivity.
  - simpl in Free. apply andb_prop in Free. destruct Free as [Free Rest].
    apply andb_prop in Free. destruct Free as [Open Close].
    apply negb_true_iff in Open, Close.
    change (String c s ++ rest) with (String c (s ++ rest)).
    cbn [vformat]. rewrite Open, Close, (IH Rest).
    destruct (vformat Literal rest kwargs); reflexivity.
Qed.

Section Balanced_prompt.
Context `{Framework}.
Variable language : string.
Hypothesis Free : brace_free language = true.

(** Format the balanced template: its head is literal text, then comes
    the language, then a fixed tail with the two fields. *)
Ltac fill_balanced_prompt :=
  unfold format_template;
  let t0 := eval cbv beta delta [balanced_prompt_template lines]
              in (balanced_prompt_template language) in
  let t := eval simpl in t0 in
  assert (E : balanced_prompt_template language = t) by reflexivity;
  rewrite string_app_assoc in E; simpl in E;
  lazymatch type of E with
  | _ = ?t' =>
      let r := split_literal t' in
      lazymatch r with
      | (?h, ?x) =>
          change t' with (h ++ x) in E; rewrite E, ?string_app_assoc;
          rewrite (vformat_literal_app h) by (vm_compute; reflexivity)
      end
  end;
  rewrite vformat_literal_app by exact Free;
  lazymatch goal with
  | |- _ = Ok ?filled =>
      let f0 := eval cbv beta delta [balanced_prompt_filled lines] in filled in
      let f := eval simpl in f0 in
      assert (EF : filled = f) by reflexivity;
      rewrite string_app_assoc in EF; rewrite EF
  end;
  vm_compute; reflexivity.

Lemma format_balanced_prompt_str question context rest :
  format_template (balanced_prompt_template language)
    (("question", question) :: ("context", VStr context) :: rest)
  = Ok (balanced_prompt_filled language (format_arg question) context "").
Proof. fill_balanced_prompt. Qed.

Lemma format_balanced_prompt_json question context rest :
  format_template
    (balanced_prompt_template language ++ newline ++ newline
       ++ "{format_instructions}" ++ newline)
    (("format_instructions", VStr (get_format_instructions PartySummaries))
     :: ("question", question) :: ("context", VStr context) :: rest)
  = Ok (balanced_prompt_filled language (format_arg question) context
          appended_instructions).
Proof. fill_balanced_prompt. Qed.
End Balanced_prompt.

Lemma check_retrieved_variables `{Framework} return_context dbs question k l :
  check_input_variables ["context"; "question"]
    (retrieved return_context dbs question k) l
  = (Ok (retrieved return_context dbs question k), l).
Proof. destruct return_context; reflexivity. Qed.

(** With a brace-free language the selected prompt of the balanced chain
    always fills. *)
Lemma selected_balanced_prompt `{Framework}
    language output_parser parser prompt return_context dbs question k l :
  brace_free language = true ->
  selection output_parser (balanced_prompt_template language)
  = Ok (parser, prompt) ->
  invoke prompt (VDict (retrieved return_context dbs question k)) l
  = (Ok (VPrompt (balanced_prompt_filled language (format_arg question)
                    (joined dbs question k) (appended_by output_parser))), l).
Proof.
  intros Free Sel.
  destruct (String.eqb_spec output_parser "json") as [-> | NotJson];
    [| destruct (String.eqb_spec output_parser "str") as [-> | NotStr]].
  - rewrite (selection_balanced_plain_json language Free) in Sel.
    match type of Sel with
    | Ok (_, ?p) = _ => assert (P : prompt = p) by congruence
    end.
    rewrite P. clear P Sel.
    change (appended_by "json") with appended_instructions.
    change (invoke (PromptTemplate ?t ?iv ?pv) ?x) with (invoke_prompt t iv pv x).
    unfold invoke_prompt, bind, validate_input.
    rewrite check_retrieved_variables.
    replace (dict_update
               (partial_kwargs
                  [("format_instructions", get_format_instructions PartySummaries)])
               (retrieved return_context dbs question k))
      with (("format_instructions", VStr (get_format_instructions PartySummaries))
            :: ("question", question)
            :: ("context", VStr (joined dbs question k))
            :: (if return_context
                then [("docs", VDict (dict_of_items (documents dbs question k)))]
                else []))
      by (destruct return_context; reflexivity).
    rewrite (format_balanced_prompt_json language Free). reflexivity.
  - rewrite (selection_balanced_plain_str language Free) in Sel.
    match type of Sel with
    | Ok (_, ?p) = _ => assert (P : prompt = p) by congruence
    end.
    rewrite P. clear P Sel.
    change (appended_by "str") with "".
    change (invoke (PromptTemplate ?t ?iv ?pv) ?x) with (invoke_prompt t iv pv x).
    unfold invoke_prompt, bind, validate_input.
    rewrite check_retrieved_variables.
    replace (dict_update (partial_kwargs []) (retrieved return_context dbs question k))
      with (("question", question)
            :: ("context", VStr (joined dbs question k))
            :: (if return_context
                then [("docs", VDict (dict_of_items (documents dbs question k)))]
                else []))
      by (destruct return_context; reflexivity).
    rewrite (format_balanced_prompt_str language Free). reflexivity.
  - rewrite selection_other in Sel by assumption. discriminate Sel.
Qed.

(** X7.  When [language] holds no brace, the balanced chain always reaches
    the model, exactly once, with the source's template in which the
    language, the joined context and the question stand as they are (and,
    in "json" mode, the format instructions after them); the result is
    the parser's reading of the reply, bundled with the question (and
    with context and documents when they are returned). *)
Theorem balanced_invocation_with_plain_language `{Framework}
    dbs llm output_parser temperature k return_context language l chain :
  brace_free language = true ->
  outcome (generate_chain_with_balanced_retrieval
             dbs llm output_parser temperature k return_context language) l
  = Ok chain ->
  forall question l0,
    let prompt :=
      balanced_prompt_filled language (format_arg question)
        (join (newline ++ newline)
           (map (fun db => build_context db question k) dbs))
        (appended_by output_parser) in
    let reply := the_llm llm temperature prompt in
    invoke chain question l0
    = (match parsed output_parser reply with
       | Ok answer =>
           Ok (VDict
                 ((if return_context
                   then retrieved return_context dbs question k
                   else [("question", question)])
                  ++ [("answer", answer)])%list)
       | Raise e => Raise e
       end,
       (l0 ++ retrieval_calls return_context dbs question k
           ++ [Call_llm prompt])%list).
Proof.
  intros Free Build question l0 prompt reply.
  destruct (full_chain_invocation _ _ _ _ _ _ _ _ _ Build)
    as (parser & selected & Sel & Inv).
  rewrite Inv. unfold bind, emit_all.
  pose proof (selected_balanced_prompt _ _ _ _ return_context dbs question k
                (l0 ++ retrieval_calls return_context dbs question k)%list
                Free Sel) as Filled.
  destruct (prompting_run _ _ _ _ (the_llm llm temperature)
              (VDict (retrieved return_context dbs question k))
              (l0 ++ retrieval_calls return_context dbs question k)%list Sel)
    as [[e [E _]] | [text [E Run]]]; rewrite Filled in E.
  - discriminate E.
  - injection E as <-. rewrite Run. subst reply prompt.
    unfold joined, contexts, blank_line.
    destruct (parsed _ _); rewrite <- app_assoc; reflexivity.
Qed.

Lemma balanced_invocation_with_plain_language_witness :
  exists chain prompt,
    outcome (generate_chain_with_balanced_retrieval (H := Stubs.framework)
               [Stubs.database "debates" "A"; Stubs.database "manifestos" "B"]
               (Some Stubs.json_llm) "json" 0%float 5 false "English") []
    = Ok chain
    /\ invoke (H := Stubs.framework) chain (VStr "{Q}") []
       = (Ok (VDict [("question", VStr "{Q}"); ("answer", Stubs.summaries)]),
          [Call_build_context 0 (VStr "{Q}") 5;
           Call_build_context 1 (VStr "{Q}") 5; Call_llm prompt]).
Proof.
  eexists.
  match goal with
  | |- exists p, outcome ?b [] = Ok ?c /\ _ =>
      assert (Build : outcome b [] = Ok c) by built
  end.
  eexists. split; [exact Build |].
  assert (Free : brace_free "English" = true) by reflexivity.
  rewrite (balanced_invocation_with_plain_language (H := Stubs.framework)
             _ _ _ _ _ _ _ _ _ Free Build (VStr "{Q}") []).
  reflexivity.
Defined.







